(** * simplechat: the chat relay handler [lambda/index.py]

    A shallow embedding of [lambda_handler] and the properties of its
    request/response translation.

    What is modelled, and how:
    - Python values that a JSON document can denote are the type [value];
      the event, the request body and the downstream reply are such values.
    - An exception is a value of [exn]: an instance of Python's [Exception]
      class, which is what [except Exception] catches.  Interpreter signals
      outside that class (KeyboardInterrupt, SystemExit) are not modelled.
    - A Python str is held as a Rocq string of bytes: its UTF-8 encoding,
      where a lone surrogate (which [json.loads] lets in through an escape
      such as \ud800, and which UTF-8 proper cannot hold) is held as the
      three bytes that the surrogatepass handler writes for it.
    - [print] is a write-only effect: a computation is a result (a value or
      the exception it raises) together with the lines it printed.  The
      standard output is a UTF-8 text stream with strict errors: [print]
      raises UnicodeEncodeError on a str that holds a lone surrogate.  What
      such a [print] wrote before the argument that fails is not recorded.
    - The standard library's [json.loads] / [json.dumps] and
      [urllib.request.urlopen] are not code of this repository: they are
      section variables, so every theorem holds for any JSON codec and any
      network.  [json.dumps] is taken to return: its one failure on values
      that came from JSON is RecursionError on nesting beyond what the
      interpreter has left, and [json.loads] counts the same levels, so a
      value that was read can be written.  The body of a success nests the
      message and the generated text two levels deeper than they were read;
      the theorems that conclude a success with either of them not a string
      take them to be scalars, where this cannot matter.
      Module [MiniJson] gives a concrete codec for closed examples. *)

From Stdlib Require Import String Ascii ZArith List Lia Bool DecimalString.
From Stdlib Require Import Floats.SpecFloat.
Import ListNotations.
Open Scope string_scope.

(* ------------------------------------------------------------------ *)
(** ** Python values *)

#[local] Set Warnings "-register-all".

Inductive value : Type :=
| VNone
| VBool (b : bool)
| VInt (z : Z)
| VFloat (f : spec_float)
| VStr (s : string)
| VList (items : list value)
| VDict (entries : list (string * value)).

(** A dict as the ordered list of its entries; a key is looked up at its
    first entry. *)
Definition dict := list (string * value).

Fixpoint dict_lookup (key : string) (d : dict) : option value :=
  match d with
  | [] => None
  | (k, v) :: rest => if String.eqb k key then Some v else dict_lookup key rest
  end.

(** [d[key] = v]: the entry is overwritten in place, or added at the end. *)
Fixpoint dict_set (key : string) (v : value) (d : dict) : dict :=
  match d with
  | [] => [(key, v)]
  | (k, w) :: rest =>
      if String.eqb k key then (k, v) :: rest else (k, w) :: dict_set key v rest
  end.

(** [type(v).__name__] *)
Definition type_name (v : value) : string :=
  match v with
  | VNone => "NoneType"
  | VBool _ => "bool"
  | VInt _ => "int"
  | VFloat _ => "float"
  | VStr _ => "str"
  | VList _ => "list"
  | VDict _ => "dict"
  end.

(** [bool(v)], the test behind [not v] and [a or b]. *)
Definition truthy (v : value) : bool :=
  match v with
  | VNone => false
  | VBool b => b
  | VInt z => negb (Z.eqb z 0)
  | VFloat (S754_zero _) => false
  | VFloat _ => true
  | VStr s => negb (String.eqb s "")
  | VList items => match items with [] => false | _ => true end
  | VDict entries => match entries with [] => false | _ => true end
  end.

(** [needle in hay] on strings: [needle] occurs as a substring. *)
Fixpoint contains (needle hay : string) : bool :=
  String.prefix needle hay ||
  match hay with
  | EmptyString => false
  | String _ rest => contains needle rest
  end.

(** [str(n)] / [f"{n}"] for an int. *)
Definition str_int (z : Z) : string := NilZero.string_of_int (Z.to_int z).

(* ------------------------------------------------------------------ *)
(** ** Exceptions *)

Inductive exn_class : Type :=
| ValueError
| KeyError
| TypeError
| AttributeError
| PlainException            (* [Exception(...)] itself *)
| OtherException (name : string).

(** An exception: its class and [str(e)].  The texts of the errors the
    interpreter raises follow CPython 3.11; no theorem depends on them. *)
Inductive exn : Type :=
| Exn (cls : exn_class) (text : string).

Definition str_exn (e : exn) : string :=
  match e with Exn _ text => text end.

Definition result (A : Type) : Type := (exn + A)%type.

(** *** What the standard output can encode *)

Definition hex_digit (n : nat) : ascii :=
  nth n ["0"; "1"; "2"; "3"; "4"; "5"; "6"; "7"; "8"; "9";
         "a"; "b"; "c"; "d"; "e"; "f"]%char "0"%char.

(** [n] in four hexadecimal digits. *)
Definition hex4 (n : N) : string :=
  let digit (k : N) := hex_digit (N.to_nat (N.modulo (N.div n k) 16)) in
  String (digit 4096%N)
    (String (digit 256%N) (String (digit 16%N) (String (digit 1%N) EmptyString))).

Definition str_nat (n : nat) : string := str_int (Z.of_nat n).

(** A byte that continues a UTF-8 sequence. *)
Definition is_continuation (c : ascii) : bool :=
  (Nat.leb 128 (nat_of_ascii c) && Nat.ltb (nat_of_ascii c) 192)%bool.

(** The three bytes of a lone surrogate: ED, A0..BF, 80..BF. *)
Definition is_surrogate (a b c : ascii) : bool :=
  (Nat.eqb (nat_of_ascii a) 237
   && Nat.leb 160 (nat_of_ascii b) && Nat.ltb (nat_of_ascii b) 192
   && is_continuation c)%bool.

(** [len(s)]: the number of code points. *)
Fixpoint code_points (s : string) : nat :=
  match s with
  | EmptyString => 0
  | String c rest =>
      if is_continuation c then code_points rest else S (code_points rest)
  end.

(** How many lone surrogates stand in a row at the head of [s]. *)
Fixpoint surrogate_run (s : string) : nat :=
  match s with
  | String a (String b (String c rest)) =>
      if is_surrogate a b c then S (surrogate_run rest) else 0
  | _ => 0
  end.

(** The first lone surrogate of [s]: its position in code points, counted
    from [index], its code point and the length of its run. *)
Fixpoint find_surrogate (s : string) (index : nat) : option (nat * N * nat) :=
  match s with
  | EmptyString => None
  | String a rest =>
      match rest with
      | String b (String c _) =>
          if is_surrogate a b c then
            Some (index,
                  (53248 + (N_of_ascii b - 128) * 64 + (N_of_ascii c - 128))%N,
                  surrogate_run s)
          else find_surrogate rest (if is_continuation a then index else S index)
      | _ => find_surrogate rest (if is_continuation a then index else S index)
      end
  end.

(** No lone surrogate: the str can be encoded as UTF-8. *)
Definition encodable (s : string) : bool :=
  match find_surrogate s 0 with
  | None => true
  | Some _ => false
  end.

(** The UnicodeEncodeError of writing [s], which starts at position [offset]
    of the str that is written. *)
Definition encode_error (offset : nat) (s : string) : option exn :=
  match find_surrogate s 0 with
  | None => None
  | Some (position, code, run) =>
      Some (Exn (OtherException "UnicodeEncodeError")
              (if Nat.eqb run 1 then
                 "'utf-8' codec can't encode character '\u" ++ hex4 code
                 ++ "' in position " ++ str_nat (offset + position)
                 ++ ": surrogates not allowed"
               else
                 "'utf-8' codec can't encode characters in position "
                 ++ str_nat (offset + position) ++ "-"
                 ++ str_nat (offset + position + run - 1)
                 ++ ": surrogates not allowed"))
  end.

(** [repr(key)] for the literal keys of the handler (no quote, no escape). *)
Definition repr_key (key : string) : string := "'" ++ key ++ "'".

Definition no_attribute (v : value) (attr : string) : exn :=
  Exn AttributeError
      ("'" ++ type_name v ++ "' object has no attribute '" ++ attr ++ "'").

(** [key in container], for a string [key]. *)
Definition py_in (key : string) (container : value) : result bool :=
  match container with
  | VDict d => inr (match dict_lookup key d with Some _ => true | None => false end)
  | VList items =>
      inr (existsb (fun x => match x with
                             | VStr s => String.eqb s key
                             | _ => false
                             end) items)
  | VStr s => inr (contains key s)
  | _ => inl (Exn TypeError
                  ("argument of type '" ++ type_name container
                   ++ "' is not iterable"))
  end.

(** [obj[key]], for a string [key]. *)
Definition py_getitem (obj : value) (key : string) : result value :=
  match obj with
  | VDict d =>
      match dict_lookup key d with
      | Some v => inr v
      | None => inl (Exn KeyError (repr_key key))
      end
  | VList _ =>
      inl (Exn TypeError "list indices must be integers or slices, not str")
  | VStr _ =>
      inl (Exn TypeError "string indices must be integers, not 'str'")
  | _ => inl (Exn TypeError
                  ("'" ++ type_name obj ++ "' object is not subscriptable"))
  end.

(** [obj.get(key, default)] *)
Definition py_get (obj : value) (key : string) (default : value) : result value :=
  match obj with
  | VDict d =>
      inr (match dict_lookup key d with Some v => v | None => default end)
  | _ => inl (no_attribute obj "get")
  end.

(** [obj.copy()] *)
Definition py_copy (obj : value) : result value :=
  match obj with
  | VList items => inr (VList items)
  | VDict d => inr (VDict d)
  | _ => inl (no_attribute obj "copy")
  end.

(** [obj.append(x)]: the object after the call. *)
Definition py_append (obj : value) (x : value) : result value :=
  match obj with
  | VList items => inr (VList (items ++ [x])%list)
  | _ => inl (no_attribute obj "append")
  end.

(* ------------------------------------------------------------------ *)
(** ** Computations: a result and the printed lines *)

(** One argument of a [print] call, or one piece of an f-string.  [Lit] is a
    text that holds no lone surrogate: a literal, the ASCII text that
    [json.dumps] or [str] of an int writes, a text that came out of
    [decode], the text of an error or the configured URL.  [Fmt] and
    [FString] carry a value of the event: [str] of a str is the str itself,
    and [str] of any other value writes the surrogates of the strings in it
    as escapes. *)
Inductive piece : Type :=
| Lit (s : string)
| Fmt (v : value)                             (* the argument [v] *)
| FString (prefix : string) (v : value).      (* the argument [f"prefix{v}"] *)

Definition line := list piece.

Definition M (A : Type) : Type := (result A * list line)%type.

Definition ret {A} (a : A) : M A := (inr a, []).

Definition raise {A} (e : exn) : M A := (inl e, []).

Definition lift {A} (r : result A) : M A := (r, []).

Definition piece_error (p : piece) : option exn :=
  match p with
  | Fmt (VStr s) => encode_error 0 s
  | FString prefix (VStr s) => encode_error (code_points prefix) s
  | _ => None
  end.

(** The error of the first argument that cannot be written. *)
Fixpoint line_error (l : line) : option exn :=
  match l with
  | [] => None
  | p :: rest =>
      match piece_error p with
      | Some e => Some e
      | None => line_error rest
      end
  end.

Definition print (l : line) : M unit :=
  match line_error l with
  | None => (inr tt, [l])
  | Some e => (inl e, [])
  end.

Definition bind {A B} (c : M A) (k : A -> M B) : M B :=
  match fst c with
  | inl e => (inl e, snd c)
  | inr a => (fst (k a), (snd c ++ snd (k a))%list)
  end.

(** [try: c  except Exception as e: handler e] *)
Definition try_except {A} (c : M A) (handler : exn -> M A) : M A :=
  match fst c with
  | inl e => (fst (handler e), (snd c ++ snd (handler e))%list)
  | inr a => (inr a, snd c)
  end.

Declare Scope py_scope.
Delimit Scope py_scope with py.
Notation "x <- c ;; k" := (bind c (fun x => k))
  (at level 61, c at next level, right associativity) : py_scope.
Notation "c ;; k" := (bind c (fun _ => k))
  (at level 61, right associativity) : py_scope.
Notation "' pat <- c ;; k" := (bind c (fun x => match x with pat => k end))
  (at level 61, pat pattern, c at next level, right associativity) : py_scope.
Open Scope py_scope.

(* ------------------------------------------------------------------ *)
(** ** The region of a function ARN (lines 10-15)

    [re.search('arn:aws:lambda:([^:]+):', arn)]: at the leftmost position
    where it can, the pattern matches the literal prefix, then the longest
    run of characters other than a colon, which has to be non-empty, then a
    colon.  A shorter run cannot help the match, since the character after
    it would again be no colon. *)

(** [s] without the leading [p], when [s] starts with [p]. *)
Fixpoint strip_prefix (p s : string) : option string :=
  match p with
  | EmptyString => Some s
  | String a p' =>
      match s with
      | String b s' => if Ascii.eqb a b then strip_prefix p' s' else None
      | EmptyString => None
      end
  end.

(** The longest run of characters other than a colon at the head of [s],
    and what follows it. *)
Fixpoint span_region (s : string) : string * string :=
  match s with
  | EmptyString => (EmptyString, EmptyString)
  | String c rest =>
      if Ascii.eqb c ":" then (EmptyString, s)
      else let (run, tail) := span_region rest in (String c run, tail)
  end.

(** The group of a match that starts at the head of [s]. *)
Definition match_region_at (s : string) : option string :=
  match strip_prefix "arn:aws:lambda:" s with
  | Some rest =>
      match span_region rest with
      | (String c run, String ":" _) => Some (String c run)
      | _ => None
      end
  | None => None
  end.

(** The group of the leftmost match in [s]. *)
Fixpoint search_region (s : string) : option string :=
  match match_region_at s with
  | Some region => Some region
  | None =>
      match s with
      | EmptyString => None
      | String _ rest => search_region rest
      end
  end.

Definition extract_region_from_arn (arn : string) : string :=
  match search_region arn with
  | Some region => region
  | None => "us-east-1"
  end.

(* ------------------------------------------------------------------ *)
(** ** The outside world *)

(** [urllib.request.Request(url, data=..., headers=..., method=...)] *)
Record request : Type := Request {
  full_url : string;
  data : string;
  request_headers : list (string * string);
  method : string
}.

(** What [urlopen(req)] does.  [read_text] is the outcome of
    [.read().decode('utf-8')] on the reply: the text, or the exception
    (UnicodeDecodeError on bytes that are not UTF-8, a read error). *)
Inductive url_result : Type :=
| Response (code : Z) (read_text : result string)
| HTTPError (code : Z) (reason : string) (readable : bool)
            (read_text : result string)
| URLError (reason : string)
| UrlRaises (e : exn).       (* any other exception of the transport *)

(** The dict returned to the platform. *)
Record envelope : Type := Envelope {
  statusCode : Z;
  headers : list (string * string);
  body : string
}.

(* ------------------------------------------------------------------ *)
(** ** The handler *)

Section Handler.

(** [os.environ.get("FASTAPI_ENDPOINT_URL")], read when the module loads. *)
Variable FASTAPI_ENDPOINT_URL : option string.

Variable json_loads : string -> result value.
Variable json_dumps : value -> string.
Variable urlopen : request -> url_result.

(** [json.loads(v)]: the argument has to be a str. *)
Definition loads (v : value) : result value :=
  match v with
  | VStr s => json_loads s
  | _ => inl (Exn TypeError
                  ("the JSON object must be str, bytes or bytearray, not "
                   ++ type_name v))
  end.

(** [not FASTAPI_ENDPOINT_URL] *)
Definition endpoint_unset : bool :=
  match FASTAPI_ENDPOINT_URL with
  | None => true
  | Some url => String.eqb url ""
  end.

Definition endpoint_url : string :=
  match FASTAPI_ENDPOINT_URL with
  | None => "None"
  | Some url => url
  end.

(** Lines 41-44: the identity claims, read and printed. *)
Definition authenticated_user (event : value) : M unit :=
  present <- (has_context <- lift (py_in "requestContext" event) ;;
              if has_context : bool then
                request_context <- lift (py_getitem event "requestContext") ;;
                lift (py_in "authorizer" request_context)
              else ret false) ;;
  if present : bool then
    request_context <- lift (py_getitem event "requestContext") ;;
    authorizer <- lift (py_getitem request_context "authorizer") ;;
    user_info <- lift (py_getitem authorizer "claims") ;;
    email <- lift (py_get user_info "email" VNone) ;;
    shown <- (if truthy email then ret email
              else lift (py_get user_info "cognito:username" VNone)) ;;
    print [FString "Authenticated user: " shown]
  else ret tt.

(** Lines 47-51: the message and the history of the request body. *)
Definition request_body (event : value) : M (value * value) :=
  raw <- lift (py_getitem event "body") ;;
  body <- lift (loads raw) ;;
  message <- lift (py_getitem body "message") ;;
  conversation_history <- lift (py_get body "conversationHistory" (VList [])) ;;
  print [Lit "Processing message:"; Fmt message] ;;
  ret (message, conversation_history).

(** Lines 58-61. *)
Definition request_data (message conversation_history : value) : value :=
  VDict [("prompt", message); ("conversationHistory", conversation_history)].

(** Lines 68-73. *)
Definition fastapi_request (message conversation_history : value) : request :=
  {| full_url := endpoint_url;
     data := json_dumps (request_data message conversation_history);
     request_headers := [("Content-Type", "application/json")];
     method := "POST" |}.

(** Lines 75-104: the call; the reply and the new history on success. *)
Definition call_fastapi (message conversation_history : value)
  : M (value * value) :=
  match urlopen (fastapi_request message conversation_history) with
  | Response code read_text =>
      if Z.eqb code 200 then
        response_body <- lift read_text ;;
        print [Lit "Received response from FastAPI: "; Lit response_body] ;;
        api_response <- lift (json_loads response_body) ;;
        assistant_response <- lift (py_get api_response "generated_text" VNone) ;;
        updated_history <- lift (py_get api_response "conversationHistory"
                                        conversation_history) ;;
        (if negb (truthy assistant_response) then
           raise (Exn PlainException
                      "No generated_text content received from FastAPI endpoint.")
         else ret tt) ;;
        messages <- lift (py_copy conversation_history) ;;
        messages <- lift (py_append messages
                            (VDict [("role", VStr "user"); ("content", message)])) ;;
        messages <- lift (py_append messages
                            (VDict [("role", VStr "assistant");
                                    ("content", assistant_response)])) ;;
        ret (assistant_response, messages)
      else
        raise (Exn PlainException
                   ("FastAPI endpoint returned status code " ++ str_int code))
  | HTTPError code reason readable read_text =>
      error_content <- (if readable then lift read_text else ret "No details") ;;
      print [Lit "HTTP Error calling FastAPI: "; Lit (str_int code); Lit " ";
             Lit reason; Lit " - "; Lit error_content] ;;
      raise (Exn PlainException
                 ("Failed to call FastAPI endpoint: " ++ str_int code
                  ++ " " ++ reason))
  | URLError reason =>
      print [Lit "URL Error calling FastAPI: "; Lit reason] ;;
      raise (Exn PlainException
                 ("Failed to connect to FastAPI endpoint: " ++ reason))
  | UrlRaises e => raise e
  end.

(** Lines 26-121: the body of the [try]. *)
Definition handler_body (event : value) : M envelope :=
  (if endpoint_unset then
     raise (Exn ValueError
                "Environment variable 'FASTAPI_ENDPOINT_URL' is not set.")
   else ret tt) ;;
  print [Lit "Received event:"; Lit (json_dumps event)] ;;
  authenticated_user event ;;
  '(message, conversation_history) <- request_body event ;;
  print [Lit "Calling FastAPI endpoint: "; Lit endpoint_url] ;;
  print [Lit "Sending data: ";
         Lit (json_dumps (request_data message conversation_history))] ;;
  '(assistant_response, messages) <- call_fastapi message conversation_history ;;
  ret {| statusCode := 200;
         headers :=
           [("Content-Type", "application/json");
            ("Access-Control-Allow-Origin", "*");
            ("Access-Control-Allow-Headers",
             "Content-Type,X-Amz-Date,Authorization,X-Api-Key,X-Amz-Security-Token");
            ("Access-Control-Allow-Methods", "OPTIONS,POST")];
         body := json_dumps
                   (VDict [("success", VBool true);
                           ("response", assistant_response);
                           ("conversationHistory", messages)]) |}.

(** Lines 25-138. *)
Definition lambda_handler (event : value) : M envelope :=
  try_except (handler_body event)
    (fun error =>
       print [Lit "Error:"; Lit (str_exn error)] ;;
       ret {| statusCode := 500;
              headers :=
                [("Content-Type", "application/json");
                 ("Access-Control-Allow-Origin", "*");
                 ("Access-Control-Allow-Headers",
                  "Content-Type,X-Amz-Date,Authorization,X-Api-Key,X-Amz-Security-Token");
                 ("Access-Control-Allow-Methods", "OPTIONS,POST")];
              body := json_dumps
                        (VDict [("success", VBool false);
                                ("error", VStr (str_exn error))]) |}).

End Handler.

(* ------------------------------------------------------------------ *)
(** ** A concrete JSON codec for closed examples

    [MiniJson.loads] and [MiniJson.dumps] follow Python's [json] module on
    the fragment the examples use: no number with a fraction or an exponent
    on input.  On that fragment [loads] builds the
    value Python builds (a repeated object key keeps its first place and
    its last value) and [dumps] writes Python's text ([ensure_ascii], the
    separators [", "] and [": "]).  Outside it, [loads] rejects the text;
    the position part of a decode error's text is not reproduced; [dumps]
    writes a finite float exactly in positional notation, where Python writes
    the shortest digits that read back as the same float. *)

Module MiniJson.

Definition dquote : ascii := "034"%char.
Definition backslash : ascii := "092"%char.

(** The text with every apostrophe turned into a double quote: a way to
    write JSON literals. *)
Fixpoint dq (s : string) : string :=
  match s with
  | EmptyString => EmptyString
  | String c rest =>
      String (if Ascii.eqb c "'"%char then dquote else c) (dq rest)
  end.

(** *** Writing *)

(** The escape of a code point of the basic plane. *)
Definition unicode_escape (code : N) : string :=
  String backslash (String "u" (hex4 code)).

(** The escape of one byte that is a character of its own. *)
Definition escape_char (c : ascii) : string :=
  let n := nat_of_ascii c in
  if Ascii.eqb c dquote then String backslash (String dquote EmptyString)
  else if Ascii.eqb c backslash then String backslash (String backslash EmptyString)
  else if Nat.eqb n 10 then String backslash "n"
  else if Nat.eqb n 13 then String backslash "r"
  else if Nat.eqb n 9 then String backslash "t"
  else if Nat.eqb n 12 then String backslash "f"
  else if Nat.eqb n 8 then String backslash "b"
  else if (Nat.ltb n 32 || Nat.ltb 126 n)%bool then unicode_escape (N_of_ascii c)
  else String c EmptyString.

(** The six low bits of a continuation byte. *)
Definition low_bits (c : ascii) : N := (N_of_ascii c - 128)%N.

(** [ensure_ascii]: a character beyond ASCII is written as the escape of its
    code point, as two escapes (a surrogate pair) beyond the basic plane.  A
    byte that starts no sequence is written as a character of its own. *)
Fixpoint escape (s : string) : string :=
  match s with
  | EmptyString => EmptyString
  | String c rest =>
      let n := N_of_ascii c in
      if (n <? 192)%N then escape_char c ++ escape rest
      else
        match rest with
        | String c2 rest2 =>
            if (n <? 224)%N then
              unicode_escape ((n - 192) * 64 + low_bits c2) ++ escape rest2
            else
              match rest2 with
              | String c3 rest3 =>
                  if (n <? 240)%N then
                    unicode_escape ((n - 224) * 4096 + low_bits c2 * 64
                                    + low_bits c3)
                    ++ escape rest3
                  else
                    match rest3 with
                    | String c4 rest4 =>
                        let code := ((n - 240) * 262144 + low_bits c2 * 4096
                                     + low_bits c3 * 64 + low_bits c4
                                     - 65536)%N in
                        unicode_escape (55296 + code / 1024)
                        ++ unicode_escape (56320 + code mod 1024)
                        ++ escape rest4
                    | EmptyString => escape_char c ++ escape rest
                    end
              | EmptyString => escape_char c ++ escape rest
              end
        | EmptyString => escape_char c
        end
  end.

Definition quoted (s : string) : string :=
  String dquote (escape s ++ String dquote EmptyString).

Fixpoint zeros (n : nat) : string :=
  match n with O => EmptyString | S n' => String "0" (zeros n') end.

(** Trailing zeros of a fraction dropped, one digit kept. *)
Fixpoint trim_fraction (s : string) : string :=
  match s with
  | EmptyString => EmptyString
  | String c rest =>
      match trim_fraction rest with
      | EmptyString => if Ascii.eqb c "0"%char then EmptyString else String c EmptyString
      | kept => String c kept
      end
  end.

Definition positional (m : positive) (e : Z) : string :=
  if (0 <=? e)%Z then str_int (Z.pos m * 2 ^ e) ++ ".0"
  else
    let k := Z.to_nat (- e) in
    let digits := str_int (Z.pos m * 5 ^ (- e)) in
    let padded := zeros (S k - String.length digits) ++ digits in
    let whole := String.length padded - k in
    substring 0 whole padded ++ "."
    ++ match trim_fraction (substring whole k padded) with
       | EmptyString => "0"
       | fraction => fraction
       end.

Definition float_repr (f : spec_float) : string :=
  match f with
  | S754_zero s => if s then "-0.0" else "0.0"
  | S754_infinity s => if s then "-Infinity" else "Infinity"
  | S754_nan => "NaN"
  | S754_finite s m e => (if s then "-" else "") ++ positional m e
  end.

Fixpoint dumps (v : value) : string :=
  match v with
  | VNone => "null"
  | VBool b => if b then "true" else "false"
  | VInt z => str_int z
  | VFloat f => float_repr f
  | VStr s => quoted s
  | VList items =>
      "[" ++ (fix elements (l : list value) : string :=
                match l with
                | [] => ""
                | [x] => dumps x
                | x :: rest => dumps x ++ ", " ++ elements rest
                end) items ++ "]"
  | VDict entries =>
      "{" ++ (fix members (l : list (string * value)) : string :=
                match l with
                | [] => ""
                | [(k, x)] => quoted k ++ ": " ++ dumps x
                | (k, x) :: rest => quoted k ++ ": " ++ dumps x ++ ", " ++ members rest
                end) entries ++ "}"
  end.

(** *** Reading *)

Definition is_ws (c : ascii) : bool :=
  let n := nat_of_ascii c in
  (Nat.eqb n 32 || Nat.eqb n 9 || Nat.eqb n 10 || Nat.eqb n 13)%bool.

Fixpoint skip_ws (s : string) : string :=
  match s with
  | String c rest => if is_ws c then skip_ws rest else s
  | EmptyString => s
  end.

Definition digit_value (c : ascii) : option Z :=
  let n := nat_of_ascii c in
  if (Nat.leb 48 n && Nat.leb n 57)%bool then Some (Z.of_nat (n - 48)) else None.

Definition hex_value (c : ascii) : option nat :=
  let n := nat_of_ascii c in
  if (Nat.leb 48 n && Nat.leb n 57)%bool then Some (n - 48)
  else if (Nat.leb 97 n && Nat.leb n 102)%bool then Some (n - 87)
  else if (Nat.leb 65 n && Nat.leb n 70)%bool then Some (n - 55)
  else None.

(** The code point of four hexadecimal digits. *)
Definition hex4_value (a b c d : ascii) : option N :=
  match hex_value a, hex_value b, hex_value c, hex_value d with
  | Some x, Some y, Some z, Some w =>
      Some (N.of_nat x * 4096 + N.of_nat y * 256 + N.of_nat z * 16
            + N.of_nat w)%N
  | _, _, _, _ => None
  end.

Definition byte_of (n : N) : ascii := ascii_of_N n.

(** The bytes that hold a code point; a surrogate takes three, like its
    neighbours. *)
Definition utf8 (code : N) : string :=
  if (code <? 128)%N then String (byte_of code) EmptyString
  else if (code <? 2048)%N then
    String (byte_of (192 + code / 64))
      (String (byte_of (128 + code mod 64)) EmptyString)
  else if (code <? 65536)%N then
    String (byte_of (224 + code / 4096))
      (String (byte_of (128 + (code / 64) mod 64))
         (String (byte_of (128 + code mod 64)) EmptyString))
  else
    String (byte_of (240 + code / 262144))
      (String (byte_of (128 + (code / 4096) mod 64))
         (String (byte_of (128 + (code / 64) mod 64))
            (String (byte_of (128 + code mod 64)) EmptyString))).

(** The characters of a string literal after its opening quote: an escaped
    high surrogate and an escaped low surrogate after it make one
    character, any other escaped surrogate stays alone. *)
Fixpoint read_string (s : string) (acc : string) : option (string * string) :=
  match s with
  | EmptyString => None
  | String c rest =>
      if Ascii.eqb c dquote then Some (acc, rest)
      else if Ascii.eqb c backslash then
        match rest with
        | String "u" (String a (String b (String h (String l rest')))) =>
            match hex4_value a b h l with
            | Some code =>
                match rest' with
                | String e (String "u" (String a2 (String b2 (String h2
                                                     (String l2 rest''))))) =>
                    match hex4_value a2 b2 h2 l2 with
                    | Some low =>
                        if (Ascii.eqb e backslash
                            && (55296 <=? code)%N && (code <? 56320)%N
                            && (56320 <=? low)%N && (low <? 57344)%N)%bool
                        then read_string rest''
                               (acc ++ utf8 (65536 + (code - 55296) * 1024
                                             + (low - 56320)))
                        else read_string rest' (acc ++ utf8 code)
                    | None => read_string rest' (acc ++ utf8 code)
                    end
                | _ => read_string rest' (acc ++ utf8 code)
                end
            | None => None
            end
        | String e rest' =>
            let plain (n : nat) :=
              read_string rest' (acc ++ String (ascii_of_nat n) "") in
            if Ascii.eqb e dquote then plain 34
            else if Ascii.eqb e backslash then plain 92
            else if Ascii.eqb e "/" then plain 47
            else if Ascii.eqb e "b" then plain 8
            else if Ascii.eqb e "f" then plain 12
            else if Ascii.eqb e "n" then plain 10
            else if Ascii.eqb e "r" then plain 13
            else if Ascii.eqb e "t" then plain 9
            else None
        | EmptyString => None
        end
      else if Nat.ltb (nat_of_ascii c) 32 then None
      else read_string rest (acc ++ String c "")
  end.

Fixpoint read_digits (s : string) (acc : Z) : Z * string :=
  match s with
  | String c rest =>
      match digit_value c with
      | Some d => read_digits rest (10 * acc + d)
      | None => (acc, s)
      end
  | EmptyString => (acc, s)
  end.

(** Does a fraction or an exponent follow the integer part? *)
Definition float_follows (s : string) : bool :=
  match s with
  | String "." (String d _) =>
      match digit_value d with Some _ => true | None => false end
  | String e (String d rest) =>
      if (Ascii.eqb e "e" || Ascii.eqb e "E")%bool then
        match digit_value d with
        | Some _ => true
        | None =>
            if (Ascii.eqb d "+" || Ascii.eqb d "-")%bool then
              match rest with
              | String d' _ =>
                  match digit_value d' with Some _ => true | None => false end
              | EmptyString => false
              end
            else false
        end
      else false
  | _ => false
  end.

(** The digits of an integer: [0], or a run that does not start with 0. *)
Definition read_natural (s : string) : option (Z * string) :=
  match s with
  | String c rest =>
      match digit_value c with
      | Some 0%Z => if float_follows rest then None else Some (0%Z, rest)
      | Some d =>
          let '(n, rest') := read_digits rest d in
          if float_follows rest' then None else Some (n, rest')
      | None => None
      end
  | EmptyString => None
  end.

Definition after (word s : string) : option string :=
  if String.prefix word s
  then Some (substring (String.length word) (String.length s) s)
  else None.

Definition read_scalar (s : string) : option (value * string) :=
  match after "null" s, after "true" s, after "false" s with
  | Some rest, _, _ => Some (VNone, rest)
  | _, Some rest, _ => Some (VBool true, rest)
  | _, _, Some rest => Some (VBool false, rest)
  | _, _, _ =>
      match after "NaN" s, after "Infinity" s, after "-Infinity" s with
      | Some rest, _, _ => Some (VFloat S754_nan, rest)
      | _, Some rest, _ => Some (VFloat (S754_infinity false), rest)
      | _, _, Some rest => Some (VFloat (S754_infinity true), rest)
      | _, _, _ =>
          match s with
          | String "-" rest =>
              match read_natural rest with
              | Some (n, rest') => Some (VInt (- n), rest')
              | None => None
              end
          | _ =>
              match read_natural s with
              | Some (n, rest') => Some (VInt n, rest')
              | None => None
              end
          end
      end
  end.

Fixpoint read_value (fuel : nat) (s : string) : option (value * string) :=
  match fuel with
  | O => None
  | S fuel' =>
      match skip_ws s with
      | String c rest =>
          if Ascii.eqb c dquote then
            match read_string rest "" with
            | Some (text, rest') => Some (VStr text, rest')
            | None => None
            end
          else if Ascii.eqb c "[" then
            match skip_ws rest with
            | String "]" rest' => Some (VList [], rest')
            | _ => read_elements fuel' rest []
            end
          else if Ascii.eqb c "{" then
            match skip_ws rest with
            | String "}" rest' => Some (VDict [], rest')
            | _ => read_members fuel' rest []
            end
          else read_scalar (String c rest)
      | EmptyString => None
      end
  end

with read_elements (fuel : nat) (s : string) (acc : list value)
  : option (value * string) :=
  match fuel with
  | O => None
  | S fuel' =>
      match read_value fuel' s with
      | Some (v, rest) =>
          match skip_ws rest with
          | String "," rest' => read_elements fuel' rest' (acc ++ [v])%list
          | String "]" rest' => Some (VList (acc ++ [v])%list, rest')
          | _ => None
          end
      | None => None
      end
  end

with read_members (fuel : nat) (s : string) (acc : dict)
  : option (value * string) :=
  match fuel with
  | O => None
  | S fuel' =>
      match skip_ws s with
      | String c rest =>
          if Ascii.eqb c dquote then
            match read_string rest "" with
            | Some (key, rest') =>
                match skip_ws rest' with
                | String ":" rest'' =>
                    match read_value fuel' rest'' with
                    | Some (v, rest3) =>
                        match skip_ws rest3 with
                        | String "," rest4 =>
                            read_members fuel' rest4 (dict_set key v acc)
                        | String "}" rest4 =>
                            Some (VDict (dict_set key v acc), rest4)
                        | _ => None
                        end
                    | None => None
                    end
                | _ => None
                end
            | None => None
            end
          else None
      | EmptyString => None
      end
  end.

Definition decode_error (text : string) : exn :=
  Exn (OtherException "JSONDecodeError") text.

(** Every nesting step or separator uses up one character of the text, and
    at most two units of fuel. *)
Definition loads (s : string) : result value :=
  match read_value (2 * String.length s + 2) s with
  | Some (v, rest) =>
      match skip_ws rest with
      | EmptyString => inr v
      | _ => inl (decode_error "Extra data")
      end
  | None => inl (decode_error "Expecting value")
  end.

End MiniJson.


(* ------------------------------------------------------------------ *)
(** ** The two envelopes of the interface *)

Definition cors_headers : list (string * string) :=
  [("Content-Type", "application/json");
   ("Access-Control-Allow-Origin", "*");
   ("Access-Control-Allow-Headers",
    "Content-Type,X-Amz-Date,Authorization,X-Api-Key,X-Amz-Security-Token");
   ("Access-Control-Allow-Methods", "OPTIONS,POST")].

(** [{success: true, response, conversationHistory}] under status 200. *)
Definition success_envelope (json_dumps : value -> string)
           (response history : value) : envelope :=
  {| statusCode := 200;
     headers := cors_headers;
     body := json_dumps (VDict [("success", VBool true);
                                ("response", response);
                                ("conversationHistory", history)]) |}.

(** [{success: false, error}] under status 500. *)
Definition error_envelope (json_dumps : value -> string)
           (message : string) : envelope :=
  {| statusCode := 500;
     headers := cors_headers;
     body := json_dumps (VDict [("success", VBool false);
                                ("error", VStr message)]) |}.

(** One turn of a conversation. *)
Definition turn (role : string) (content : value) : value :=
  VDict [("role", VStr role); ("content", content)].

(** [body.get('conversationHistory', [])] on the entries of the body. *)
Definition history_of (b : dict) : value :=
  match dict_lookup "conversationHistory" b with
  | Some h => h
  | None => VList []
  end.

(** A value that [print] can write: any value but a str that holds a lone
    surrogate. *)
Definition printable (v : value) : bool :=
  match v with
  | VStr s => encodable s
  | _ => true
  end.

(** A value that is no list and no dict. *)
Definition scalar (v : value) : bool :=
  match v with
  | VList _ | VDict _ => false
  | _ => true
  end.

(** [claims.get('email') or claims.get('cognito:username')] *)
Definition logged_identity (claims : dict) : value :=
  let email := match dict_lookup "email" claims with
               | Some v => v
               | None => VNone
               end in
  if truthy email then email
  else match dict_lookup "cognito:username" claims with
       | Some v => v
       | None => VNone
       end.

(** The identity data of an event is absent, or complete with an identity
    that can be printed. *)
Definition claims_readable (e : dict) : bool :=
  match dict_lookup "requestContext" e with
  | None => true
  | Some (VDict request_context) =>
      match dict_lookup "authorizer" request_context with
      | None => true
      | Some (VDict authorizer) =>
          match dict_lookup "claims" authorizer with
          | Some (VDict claims) => printable (logged_identity claims)
          | _ => false
          end
      | Some _ => false
      end
  | Some _ => false
  end.

Definition config_error_text : string :=
  "Environment variable 'FASTAPI_ENDPOINT_URL' is not set.".

Definition no_content_text : string :=
  "No generated_text content received from FastAPI endpoint.".

(* ------------------------------------------------------------------ *)
(** ** A concrete deployment for closed examples *)

Definition example_endpoint : option string :=
  Some "http://fastapi.example/generate".

(** A network in which the configured endpoint answers a POST with
    [outcome], and no other host exists. *)
Definition fastapi_stub (outcome : url_result) (req : request) : url_result :=
  if (String.eqb (full_url req) "http://fastapi.example/generate"
      && String.eqb (method req) "POST")%bool
  then outcome
  else URLError "[Errno -2] Name or service not known".

Definition example_handler (outcome : url_result) : value -> M envelope :=
  lambda_handler example_endpoint MiniJson.loads MiniJson.dumps
                 (fastapi_stub outcome).

(** A 200 reply with the given JSON text, apostrophes for double quotes. *)
Definition replies (text : string) : url_result :=
  Response 200 (inr (MiniJson.dq text)).

(** An event that carries only a body, apostrophes for double quotes. *)
Definition event_of_body (text : string) : value :=
  VDict [("body", VStr (MiniJson.dq text))].

(** An event whose authorizer data is [authorizer]. *)
Definition event_with_authorizer (authorizer : value) : value :=
  VDict [("requestContext", VDict [("authorizer", authorizer)]);
         ("body", VStr (MiniJson.dq "{'message': 'hi'}"))].

(** An event whose identity claims are replaced by [claims]. *)
Definition with_claims (claims : value) (e request_context authorizer : dict)
  : value :=
  VDict (dict_set "requestContext"
           (VDict (dict_set "authorizer"
                     (VDict (dict_set "claims" claims authorizer))
                     request_context))
           e).

(** The text of the error that [bytes.decode] raises on the byte 0xff. *)
Definition undecodable : exn :=
  Exn (OtherException "UnicodeDecodeError")
      "'utf-8' codec can't decode byte 0xff in position 0: invalid start byte".

(* ------------------------------------------------------------------ *)
(** ** Results of computations *)

Section Computations.

Context {A B : Type}.

Lemma fst_ret (a : A) : fst (ret a) = inr a.
Proof. reflexivity. Qed.

Lemma fst_raise (e : exn) : fst (@raise A e) = inl e.
Proof. reflexivity. Qed.

Lemma fst_lift (r : result A) : fst (lift r) = r.
Proof. reflexivity. Qed.

Lemma fst_bind (c : M A) (k : A -> M B) :
  fst (bind c k) = match fst c with
                   | inl e => inl e
                   | inr a => fst (k a)
                   end.
Proof. unfold bind. destruct (fst c); reflexivity. Qed.

Lemma fst_bind_ok (c : M A) (k : A -> M B) (a : A) :
  fst c = inr a -> fst (bind c k) = fst (k a).
Proof. intros H. rewrite fst_bind, H. reflexivity. Qed.

Lemma fst_bind_raises (c : M A) (k : A -> M B) (e : exn) :
  fst c = inl e -> fst (bind c k) = inl e.
Proof. intros H. rewrite fst_bind, H. reflexivity. Qed.

Lemma fst_bind_inv (c : M A) (k : A -> M B) (b : B) :
  fst (bind c k) = inr b -> exists a, fst c = inr a /\ fst (k a) = inr b.
Proof.
  rewrite fst_bind. destruct (fst c) as [e | a]; [discriminate |].
  intros H. exists a. split; [reflexivity | exact H].
Qed.

End Computations.

Lemma encode_error_encodable (offset : nat) (s : string) :
  encodable s = true -> encode_error offset s = None.
Proof.
  unfold encodable, encode_error.
  destruct (find_surrogate s 0) as [[[position code] run] |];
    [discriminate | reflexivity].
Qed.

(** A line whose values are printable is printed. *)
Lemma print_value (label : string) (v : value) :
  printable v = true -> print [Lit label; Fmt v] = (inr tt, [[Lit label; Fmt v]]).
Proof.
  intros Hv. unfold print. cbn [line_error piece_error].
  destruct v; try reflexivity.
  cbn [printable] in Hv. rewrite (encode_error_encodable _ _ Hv). reflexivity.
Qed.

Lemma print_fstring (prefix : string) (v : value) :
  printable v = true ->
  print [FString prefix v] = (inr tt, [[FString prefix v]]).
Proof.
  intros Hv. unfold print. cbn [line_error piece_error].
  destruct v; try reflexivity.
  cbn [printable] in Hv. rewrite (encode_error_encodable _ _ Hv). reflexivity.
Qed.

Lemma fst_try_except {A} (c : M A) (handler : exn -> M A) :
  fst (try_except c handler) = match fst c with
                               | inl e => fst (handler e)
                               | inr a => inr a
                               end.
Proof. unfold try_except. destruct (fst c); reflexivity. Qed.

Create Rewrite HintDb run.
#[local] Hint Rewrite @fst_bind @fst_ret @fst_raise @fst_lift
  @fst_try_except : run.

(** Unfold the sequencing of a computation down to its results. *)
Ltac run :=
  repeat (autorewrite with run; cbn [fst snd print line_error piece_error]).

(* ------------------------------------------------------------------ *)
(** ** Strings *)

Lemma prefix_app (a b : string) : String.prefix a (a ++ b) = true.
Proof.
  induction a as [| c a IH]; simpl.
  - destruct b; reflexivity.
  - rewrite IH. destruct (ascii_dec c c); [reflexivity | contradiction].
Qed.

Lemma append_empty (s : string) : s ++ "" = s.
Proof. induction s as [| c s IH]; simpl; [| rewrite IH]; reflexivity. Qed.

Lemma contains_prefix (needle hay : string) :
  String.prefix needle hay = true -> contains needle hay = true.
Proof. intros H. destruct hay; cbn [contains]; rewrite H; reflexivity. Qed.

Lemma contains_app (pre needle post : string) :
  contains needle (pre ++ needle ++ post) = true.
Proof.
  induction pre as [| c pre IH]; simpl.
  - apply contains_prefix, prefix_app.
  - rewrite IH. apply orb_true_r.
Qed.

(* ------------------------------------------------------------------ *)
(** ** The phases of the handler *)

Section Phases.

Variable endpoint : option string.
Variable json_loads : string -> result value.
Variable json_dumps : value -> string.
Variable urlopen : request -> url_result.

Let handler := lambda_handler endpoint json_loads json_dumps urlopen.
Let try_body := handler_body endpoint json_loads json_dumps urlopen.
Let call := call_fastapi endpoint json_loads json_dumps urlopen.
Let sent := fastapi_request endpoint json_dumps.

(** The [except] clause turns the exception of the body into the error
    envelope, and leaves a returned envelope alone. *)
Lemma handler_catches (event : value) :
  fst (handler event) =
  match fst (try_body event) with
  | inl e => inr (error_envelope json_dumps (str_exn e))
  | inr env => inr env
  end.
Proof.
  unfold handler, lambda_handler. rewrite fst_try_except.
  fold try_body. destruct (fst (try_body event)); reflexivity.
Qed.

(** The outcome of the body, phase by phase; what is printed plays no part. *)
Lemma body_outcome (event : value) :
  fst (try_body event) =
  if endpoint_unset endpoint then inl (Exn ValueError config_error_text)
  else match fst (authenticated_user event) with
       | inl e => inl e
       | inr _ =>
           match fst (request_body json_loads event) with
           | inl e => inl e
           | inr (m, h) =>
               match fst (call m h) with
               | inl e => inl e
               | inr (r, messages) =>
                   inr (success_envelope json_dumps r messages)
               end
           end
       end.
Proof.
  unfold try_body, handler_body. run.
  destruct (endpoint_unset endpoint); run; [reflexivity |].
  destruct (fst (authenticated_user event)); [reflexivity |].
  destruct (fst (request_body json_loads event)) as [e | [m h]];
    [reflexivity |].
  run. fold call. destruct (fst (call m h)) as [e | [r messages]]; reflexivity.
Qed.

(** Once the endpoint is set, the claims are read and the body is parsed,
    the outcome of the body is the outcome of the call. *)
Lemma body_after_parsing (event m h : value) :
  endpoint_unset endpoint = false ->
  fst (authenticated_user event) = inr tt ->
  fst (request_body json_loads event) = inr (m, h) ->
  fst (try_body event) =
  match fst (call m h) with
  | inl e => inl e
  | inr (r, messages) => inr (success_envelope json_dumps r messages)
  end.
Proof.
  intros Hset Hauth Hreq. unfold try_body, handler_body.
  rewrite Hset. run. rewrite Hauth, Hreq. run. fold call.
  destruct (fst (call m h)) as [e | [r messages]]; reflexivity.
Qed.

(** Whatever the body returns is a success envelope. *)
Lemma body_returns_success (event : value) (env : envelope) :
  fst (try_body event) = inr env ->
  exists m h r messages,
    endpoint_unset endpoint = false /\
    fst (authenticated_user event) = inr tt /\
    fst (request_body json_loads event) = inr (m, h) /\
    fst (call m h) = inr (r, messages) /\
    env = success_envelope json_dumps r messages.
Proof.
  unfold try_body, handler_body. run.
  destruct (endpoint_unset endpoint) eqn:Hset; run; [discriminate |].
  destruct (fst (authenticated_user event)) as [e | []] eqn:Hauth;
    [discriminate |].
  destruct (fst (request_body json_loads event)) as [e | [m h]] eqn:Hreq;
    [discriminate |].
  run. fold call.
  destruct (fst (call m h)) as [e | [r messages]] eqn:Hcall; [discriminate |].
  run. intros [= <-]. exists m, h, r, messages. repeat split; assumption.
Qed.

(** Identity data that is absent or complete is read without an error. *)
Lemma claims_read (e : dict) :
  claims_readable e = true -> fst (authenticated_user (VDict e)) = inr tt.
Proof.
  unfold claims_readable. intros Hok.
  destruct (dict_lookup "requestContext" e) as [[| | | | | | rc] |] eqn:Hrc;
    try discriminate;
    [destruct (dict_lookup "authorizer" rc) as [[| | | | | | a] |] eqn:Ha;
       try discriminate;
       [destruct (dict_lookup "claims" a) as [[| | | | | | c] |] eqn:Hc;
          try discriminate |] |];
    unfold authenticated_user;
    repeat (autorewrite with run; cbn [fst snd py_in py_getitem py_get];
            rewrite ?Hrc, ?Ha, ?Hc);
    try reflexivity.
  unfold logged_identity in Hok. cbv zeta in Hok.
  destruct (truthy match dict_lookup "email" c with
                   | Some v => v
                   | None => VNone
                   end);
    autorewrite with run; rewrite (print_fstring _ _ Hok); reflexivity.
Qed.

(** A body that is a JSON object with a message is parsed, and the message
    is printed: a message that cannot be printed is the one way to fail. *)
Lemma body_parsed_or_unprintable (e b : dict) (raw : string) (m : value) :
  dict_lookup "body" e = Some (VStr raw) ->
  json_loads raw = inr (VDict b) ->
  dict_lookup "message" b = Some m ->
  fst (request_body json_loads (VDict e))
  = match piece_error (Fmt m) with
    | Some err => inl err
    | None => inr (m, history_of b)
    end.
Proof.
  intros Hbody Hraw Hm. unfold request_body.
  autorewrite with run. cbn [py_getitem]. rewrite Hbody.
  cbn [loads]. rewrite Hraw. autorewrite with run.
  cbn [py_getitem py_get]. rewrite Hm. autorewrite with run.
  unfold print, history_of. cbn [line_error piece_error].
  destruct m; try reflexivity.
  destruct (encode_error 0 s); reflexivity.
Qed.

Lemma body_parsed (e b : dict) (raw : string) (m : value) :
  dict_lookup "body" e = Some (VStr raw) ->
  json_loads raw = inr (VDict b) ->
  dict_lookup "message" b = Some m ->
  printable m = true ->
  fst (request_body json_loads (VDict e)) = inr (m, history_of b).
Proof.
  intros Hbody Hraw Hm Hprint.
  rewrite (body_parsed_or_unprintable _ _ _ _ Hbody Hraw Hm).
  destruct m; try reflexivity.
  cbn [piece_error]. cbn [printable] in Hprint.
  rewrite (encode_error_encodable _ _ Hprint). reflexivity.
Qed.

(** When the body is parsed, it is with the message and the history that
    the body holds. *)
Lemma body_parsed_as (e b : dict) (raw : string) (m m' h' : value) :
  dict_lookup "body" e = Some (VStr raw) ->
  json_loads raw = inr (VDict b) ->
  dict_lookup "message" b = Some m ->
  fst (request_body json_loads (VDict e)) = inr (m', h') ->
  m' = m /\ h' = history_of b.
Proof.
  intros Hbody Hraw Hm.
  rewrite (body_parsed_or_unprintable _ _ _ _ Hbody Hraw Hm).
  destruct (piece_error (Fmt m)); [discriminate |].
  intros [= <- <-]. split; reflexivity.
Qed.

(** The call on a 200 reply that carries generated content. *)
Lemma call_replied (m r : value) (hist : list value) (text : string) (d : dict) :
  urlopen (sent m (VList hist)) = Response 200 (inr text) ->
  json_loads text = inr (VDict d) ->
  dict_lookup "generated_text" d = Some r ->
  truthy r = true ->
  fst (call m (VList hist)) =
  inr (r, VList (hist ++ [turn "user" m; turn "assistant" r])%list).
Proof.
  intros Hurl Htext Hgen Htrue. unfold call, call_fastapi. fold sent.
  rewrite Hurl. simpl Z.eqb. run. rewrite Htext. run. simpl.
  rewrite Hgen, Htrue. run. simpl. rewrite <- app_assoc. reflexivity.
Qed.

(** The call returns only on a 200 reply that carries generated content and
    for a history that is a list. *)
Lemma call_returns (m h r messages : value) :
  fst (call m h) = inr (r, messages) ->
  exists text d hist,
    urlopen (sent m h) = Response 200 (inr text) /\
    json_loads text = inr (VDict d) /\
    dict_lookup "generated_text" d = Some r /\
    truthy r = true /\
    h = VList hist /\
    messages = VList (hist ++ [turn "user" m; turn "assistant" r])%list.
Proof.
  unfold call, call_fastapi. fold sent.
  destruct (urlopen (sent m h)) as [code rd | code reason rdb rd | reason | e].
  - destruct (Z.eqb_spec code 200) as [-> | Hne]; run; [| discriminate].
    destruct rd as [e | text]; [discriminate |]. run.
    destruct (json_loads text) as [e | [| | | | | | d]] eqn:Htext;
      try discriminate.
    simpl.
    destruct (dict_lookup "generated_text" d) as [g |] eqn:Hgen;
      [| simpl; discriminate].
    destruct (truthy g) eqn:Htrue; run; [| discriminate].
    destruct h as [| | | | | hist | hd]; try discriminate; simpl.
    intros [= <- <-]. exists text, d, hist. rewrite <- app_assoc.
    repeat split; assumption.
  - run. destruct rdb; run; [destruct rd |]; discriminate.
  - run. discriminate.
  - run. discriminate.
Qed.

End Phases.

(* ------------------------------------------------------------------ *)
(** ** Dicts *)

Lemma dict_lookup_set (key : string) (v : value) (d : dict) :
  dict_lookup key (dict_set key v d) = Some v.
Proof.
  induction d as [| [k w] d IH]; simpl.
  - rewrite String.eqb_refl. reflexivity.
  - destruct (String.eqb k key) eqn:E; simpl; rewrite E; [reflexivity | exact IH].
Qed.

Lemma dict_lookup_set_other (key other : string) (v : value) (d : dict) :
  String.eqb key other = false ->
  dict_lookup other (dict_set key v d) = dict_lookup other d.
Proof.
  intros Hne. induction d as [| [k w] d IH]; simpl.
  - rewrite Hne. reflexivity.
  - destruct (String.eqb k key) eqn:E; simpl.
    + apply String.eqb_eq in E. subst k. rewrite Hne. reflexivity.
    + rewrite IH. reflexivity.
Qed.

(* ------------------------------------------------------------------ *)
(** ** Properties of the handler *)

(** C1 (as amended).  The endpoint is set; the event is a mapping whose
    identity data is absent, or complete with an identity that can be
    printed, and whose body parses as a JSON object with a [message] that is
    a non-empty string without a lone surrogate and a [conversationHistory]
    that is absent or a list; the endpoint replies 200 with a JSON object
    whose [generated_text] is a non-empty string [X].  Then the handler
    returns status 200 and the body is the JSON text of an object with
    [success] true and [response] [X]. *)
Theorem relay_success
        (endpoint : option string) (json_loads : string -> result value)
        (json_dumps : value -> string) (urlopen : request -> url_result)
        (e b d : dict) (raw text message X : string) (hist : list value) :
  endpoint_unset endpoint = false ->
  claims_readable e = true ->
  dict_lookup "body" e = Some (VStr raw) ->
  json_loads raw = inr (VDict b) ->
  dict_lookup "message" b = Some (VStr message) ->
  message <> "" ->
  encodable message = true ->
  history_of b = VList hist ->
  urlopen (fastapi_request endpoint json_dumps (VStr message) (VList hist))
  = Response 200 (inr text) ->
  json_loads text = inr (VDict d) ->
  dict_lookup "generated_text" d = Some (VStr X) ->
  X <> "" ->
  exists env,
    fst (lambda_handler endpoint json_loads json_dumps urlopen (VDict e))
    = inr env /\
    statusCode env = 200%Z /\
    body env =
    json_dumps
      (VDict [("success", VBool true);
              ("response", VStr X);
              ("conversationHistory",
               VList (hist ++ [turn "user" (VStr message);
                               turn "assistant" (VStr X)])%list)]).
Proof.
  intros Hset Hclaims Hbody Hraw Hmsg _ Hprint Hhist Hurl Htext Hgen HX.
  exists (success_envelope json_dumps (VStr X)
            (VList (hist ++ [turn "user" (VStr message);
                             turn "assistant" (VStr X)])%list)).
  split; [| split; reflexivity].
  rewrite handler_catches.
  rewrite (body_after_parsing _ _ _ _ _ (VStr message) (VList hist) Hset
             (claims_read e Hclaims)).
  - rewrite (call_replied _ _ _ _ _ _ _ _ _ Hurl Htext Hgen).
    + reflexivity.
    + simpl. apply negb_true_iff, String.eqb_neq, HX.
  - rewrite <- Hhist. apply (body_parsed _ _ _ _ _ Hbody Hraw Hmsg Hprint).
Qed.

(** C1, an instance: message [hi], no history, reply [X]. *)
Lemma relay_success_witness :
  exists env,
    fst (example_handler (replies "{'generated_text': 'X'}")
                         (event_of_body "{'message': 'hi'}")) = inr env /\
    statusCode env = 200%Z /\
    body env =
    MiniJson.dumps
      (VDict [("success", VBool true);
              ("response", VStr "X");
              ("conversationHistory",
               VList [turn "user" (VStr "hi"); turn "assistant" (VStr "X")])]).
Proof.
  apply (relay_success example_endpoint MiniJson.loads MiniJson.dumps
           (fastapi_stub (replies "{'generated_text': 'X'}"))
           [("body", VStr (MiniJson.dq "{'message': 'hi'}"))]
           [("message", VStr "hi")]
           [("generated_text", VStr "X")]
           (MiniJson.dq "{'message': 'hi'}")
           (MiniJson.dq "{'generated_text': 'X'}")
           "hi" "X" []);
    try reflexivity; discriminate.
Defined.

(** C1 as stated fails: the body parses as JSON with the non-empty string
    message [hi], the endpoint is set and replies 200 with [generated_text]
    [X], and yet the handler answers 500, because the body's
    [conversationHistory] is [null] and [None.copy()] raises. *)
Lemma relay_fails_on_null_history :
  endpoint_unset example_endpoint = false /\
  MiniJson.loads (MiniJson.dq "{'message': 'hi', 'conversationHistory': null}")
  = inr (VDict [("message", VStr "hi"); ("conversationHistory", VNone)]) /\
  fastapi_stub (replies "{'generated_text': 'X'}")
               (fastapi_request example_endpoint MiniJson.dumps (VStr "hi") VNone)
  = Response 200 (inr (MiniJson.dq "{'generated_text': 'X'}")) /\
  MiniJson.loads (MiniJson.dq "{'generated_text': 'X'}")
  = inr (VDict [("generated_text", VStr "X")]) /\
  fst (example_handler
         (replies "{'generated_text': 'X'}")
         (event_of_body "{'message': 'hi', 'conversationHistory': null}"))
  = inr (error_envelope MiniJson.dumps
                        "'NoneType' object has no attribute 'copy'").
Proof. repeat split; vm_compute; reflexivity. Qed.

(** Supporting C1: a message with a lone surrogate, which [json.loads] reads
    from the escape \ud800, is a non-empty string, and the invocation fails
    when the message is printed. *)
Lemma relay_fails_on_lone_surrogate :
  MiniJson.loads (MiniJson.dq "{'message': '\ud800'}")
  = inr (VDict [("message",
                 VStr (String "237" (String "160" (String "128" EmptyString))))]) /\
  fst (example_handler (replies "{'generated_text': 'X'}")
                       (event_of_body "{'message': '\ud800'}"))
  = inr (error_envelope MiniJson.dumps
           "'utf-8' codec can't encode character '\ud800' in position 0: surrogates not allowed").
Proof. split; vm_compute; reflexivity. Qed.

(** C2.  In every invocation that returns status 200, with [m] the message
    of the body, [history_of b] its [conversationHistory] (the empty list
    when absent) and [r] the [generated_text] of the reply [d], the inbound
    history is a list and the returned history is that list, in its order,
    followed by the user turn [m] and the assistant turn [r].  Nothing else
    of [d], a [conversationHistory] of its own included, has a part in it. *)
Theorem returned_history
        (endpoint : option string) (json_loads : string -> result value)
        (json_dumps : value -> string) (urlopen : request -> url_result)
        (e b d : dict) (raw text : string) (m r : value) (env : envelope) :
  fst (lambda_handler endpoint json_loads json_dumps urlopen (VDict e))
  = inr env ->
  statusCode env = 200%Z ->
  dict_lookup "body" e = Some (VStr raw) ->
  json_loads raw = inr (VDict b) ->
  dict_lookup "message" b = Some m ->
  urlopen (fastapi_request endpoint json_dumps m (history_of b))
  = Response 200 (inr text) ->
  json_loads text = inr (VDict d) ->
  dict_lookup "generated_text" d = Some r ->
  exists hist,
    history_of b = VList hist /\
    body env =
    json_dumps
      (VDict [("success", VBool true);
              ("response", r);
              ("conversationHistory",
               VList (hist ++ [turn "user" m; turn "assistant" r])%list)]).
Proof.
  intros Hrun Hcode Hbody Hraw Hm Hurl Htext Hgen.
  rewrite handler_catches in Hrun.
  destruct (fst (handler_body endpoint json_loads json_dumps urlopen (VDict e)))
    as [err | env'] eqn:Hbd.
  - injection Hrun as <-. discriminate Hcode.
  - injection Hrun as ->.
    apply body_returns_success in Hbd.
    destruct Hbd as (m' & h' & r' & messages & _ & _ & Hreq & Hcall & ->).
    destruct (body_parsed_as _ _ _ _ _ _ _ Hbody Hraw Hm Hreq) as [-> ->].
    apply call_returns in Hcall.
    destruct Hcall as (text' & d' & hist & Hurl' & Htext' & Hgen' & _ & Hh & ->).
    rewrite Hurl in Hurl'. injection Hurl' as <-.
    rewrite Htext in Htext'. injection Htext' as <-.
    rewrite Hgen in Hgen'. injection Hgen' as <-.
    exists hist. split; [exact Hh | reflexivity].
Qed.

(** C2, the instance of the specification: history [hi], message [there],
    reply [ok] together with a history of the endpoint's own. *)
Lemma returned_history_witness :
  exists env,
    fst (example_handler
           (replies "{'generated_text': 'ok', 'conversationHistory': []}")
           (event_of_body "{'message': 'there', 'conversationHistory': [{'role': 'user', 'content': 'hi'}]}"))
    = inr env /\
    statusCode env = 200%Z /\
    body env =
    MiniJson.dumps
      (VDict [("success", VBool true);
              ("response", VStr "ok");
              ("conversationHistory",
               VList [turn "user" (VStr "hi");
                      turn "user" (VStr "there");
                      turn "assistant" (VStr "ok")])]).
Proof.
  eexists. split; [vm_compute; reflexivity |]. split; [reflexivity |].
  destruct (returned_history example_endpoint MiniJson.loads MiniJson.dumps
              (fastapi_stub
                 (replies "{'generated_text': 'ok', 'conversationHistory': []}"))
              [("body", VStr (MiniJson.dq "{'message': 'there', 'conversationHistory': [{'role': 'user', 'content': 'hi'}]}"))]
              [("message", VStr "there");
               ("conversationHistory", VList [turn "user" (VStr "hi")])]
              [("generated_text", VStr "ok"); ("conversationHistory", VList [])]
              (MiniJson.dq "{'message': 'there', 'conversationHistory': [{'role': 'user', 'content': 'hi'}]}")
              (MiniJson.dq "{'generated_text': 'ok', 'conversationHistory': []}")
              (VStr "there") (VStr "ok") _
              ltac:(vm_compute; reflexivity) ltac:(reflexivity)
              ltac:(reflexivity) ltac:(vm_compute; reflexivity)
              ltac:(reflexivity) ltac:(vm_compute; reflexivity)
              ltac:(vm_compute; reflexivity) ltac:(reflexivity))
    as (hist & Hhist & Hbody).
  injection Hhist as <-. exact Hbody.
Defined.

(** X17 (supporting C3): the content of the identity claims has no part in
    the returned envelope, as long as the identity that is logged (the email,
    or else the user name) can be printed.  Two events that differ only in
    the mapping under [requestContext.authorizer.claims] are then answered
    alike. *)
Lemma claims_content_ignored
      (endpoint : option string) (json_loads : string -> result value)
      (json_dumps : value -> string) (urlopen : request -> url_result)
      (e request_context authorizer claims1 claims2 : dict) :
  printable (logged_identity claims1) = true ->
  printable (logged_identity claims2) = true ->
  fst (lambda_handler endpoint json_loads json_dumps urlopen
         (with_claims (VDict claims1) e request_context authorizer))
  = fst (lambda_handler endpoint json_loads json_dumps urlopen
           (with_claims (VDict claims2) e request_context authorizer)).
Proof.
  intros Hprint1 Hprint2.
  assert (Hread : forall c,
             printable (logged_identity c) = true ->
             fst (authenticated_user
                    (with_claims (VDict c) e request_context authorizer))
             = inr tt).
  { intros c Hc. apply claims_read. unfold claims_readable.
    rewrite !dict_lookup_set. exact Hc. }
  assert (Hreq : forall c,
             fst (request_body json_loads
                    (with_claims (VDict c) e request_context authorizer))
             = fst (request_body json_loads (VDict e))).
  { intros c. unfold request_body, with_claims.
    autorewrite with run. cbn [py_getitem].
    rewrite dict_lookup_set_other by reflexivity. reflexivity. }
  rewrite !handler_catches, !body_outcome, (Hread _ Hprint1),
    (Hread _ Hprint2), !Hreq.
  reflexivity.
Qed.

(** X17, an instance: one user is known by email, the other by name. *)
Lemma claims_content_ignored_witness :
  fst (example_handler (replies "{'generated_text': 'X'}")
         (event_with_authorizer
            (VDict [("claims", VDict [("email", VStr "a@b.c")])])))
  = fst (example_handler (replies "{'generated_text': 'X'}")
           (event_with_authorizer
              (VDict [("claims",
                       VDict [("email", VStr "");
                              ("cognito:username", VStr "ann")])]))).
Proof.
  apply (claims_content_ignored example_endpoint MiniJson.loads MiniJson.dumps
           (fastapi_stub (replies "{'generated_text': 'X'}"))
           [("requestContext", VDict [("authorizer", VDict [])]);
            ("body", VStr (MiniJson.dq "{'message': 'hi'}"))]
           [("authorizer", VDict [])] []
           [("email", VStr "a@b.c")]
           [("email", VStr ""); ("cognito:username", VStr "ann")]);
    reflexivity.
Defined.

(** C3 fails on the code.  Two events that differ only in the presence of
    the claims mapping under [requestContext.authorizer] are answered
    differently: with claims the reply is relayed under status 200, without
    them [authorizer['claims']] raises KeyError and the answer is 500. *)
Theorem claims_absence_changes_envelope :
  fst (example_handler
         (replies "{'generated_text': 'X'}")
         (event_with_authorizer (VDict [("claims", VDict [("email", VStr "a@b.c")])])))
  = inr (success_envelope MiniJson.dumps (VStr "X")
           (VList [turn "user" (VStr "hi"); turn "assistant" (VStr "X")])) /\
  fst (example_handler
         (replies "{'generated_text': 'X'}")
         (event_with_authorizer (VDict [])))
  = inr (error_envelope MiniJson.dumps "'claims'").
Proof. split; vm_compute; reflexivity. Qed.

(** X20 (supporting C4): a body that does not parse fails the invocation. *)
Lemma unparseable_body_fails
      (endpoint : option string) (json_loads : string -> result value)
      (json_dumps : value -> string) (urlopen : request -> url_result)
      (e : dict) (raw : string) (err : exn) :
  dict_lookup "body" e = Some (VStr raw) ->
  json_loads raw = inl err ->
  exists error_text,
    fst (lambda_handler endpoint json_loads json_dumps urlopen (VDict e))
    = inr (error_envelope json_dumps error_text).
Proof.
  intros Hbody Hraw. rewrite handler_catches, body_outcome.
  assert (Hreq : fst (request_body json_loads (VDict e)) = inl err).
  { unfold request_body. run. simpl. rewrite Hbody. simpl. rewrite Hraw.
    reflexivity. }
  rewrite Hreq.
  destruct (endpoint_unset endpoint); [eexists; reflexivity |].
  destruct (fst (authenticated_user (VDict e))); eexists; reflexivity.
Qed.

(** X19 (supporting C4): an endpoint that cannot be reached fails the invocation
    with the reason of the transport in the error text. *)
Lemma connection_failure_fails
      (endpoint : option string) (json_loads : string -> result value)
      (json_dumps : value -> string) (urlopen : request -> url_result)
      (event m h : value) (reason : string) :
  endpoint_unset endpoint = false ->
  fst (authenticated_user event) = inr tt ->
  fst (request_body json_loads event) = inr (m, h) ->
  urlopen (fastapi_request endpoint json_dumps m h) = URLError reason ->
  fst (lambda_handler endpoint json_loads json_dumps urlopen event)
  = inr (error_envelope json_dumps
           ("Failed to connect to FastAPI endpoint: " ++ reason)).
Proof.
  intros Hset Hauth Hreq Hurl.
  rewrite handler_catches, (body_after_parsing _ _ _ _ _ m h Hset Hauth Hreq).
  unfold call_fastapi. rewrite Hurl. reflexivity.
Qed.

(** C4.  The answer of the handler is fixed by the outcome of the body of
    its [try].  When the body raises [e], whatever [e] is, the answer is the
    error envelope: status 500, the fixed headers, and the JSON text of
    [{success: false, error: str(e)}].  When the body returns, the answer is
    what it returns, and that is a success envelope: status 200, the same
    headers, and the JSON text of
    [{success: true, response, conversationHistory}].  There is no third
    shape. *)
Theorem uniform_error_envelope
        (endpoint : option string) (json_loads : string -> result value)
        (json_dumps : value -> string) (urlopen : request -> url_result)
        (event : value) :
  fst (lambda_handler endpoint json_loads json_dumps urlopen event)
  = match fst (handler_body endpoint json_loads json_dumps urlopen event) with
    | inl e =>
        inr {| statusCode := 500;
               headers := cors_headers;
               body := json_dumps (VDict [("success", VBool false);
                                          ("error", VStr (str_exn e))]) |}
    | inr env => inr env
    end
  /\
  match fst (handler_body endpoint json_loads json_dumps urlopen event) with
  | inl _ => True
  | inr env =>
      exists response history,
        env = {| statusCode := 200;
                 headers := cors_headers;
                 body := json_dumps (VDict [("success", VBool true);
                                            ("response", response);
                                            ("conversationHistory", history)])
              |}
  end.
Proof.
  split; [apply handler_catches |].
  destruct (fst (handler_body endpoint json_loads json_dumps urlopen event))
    as [e | env] eqn:Hbd; [exact I |].
  apply body_returns_success in Hbd.
  destruct Hbd as (m & h & r & messages & _ & _ & _ & _ & ->).
  exists r, messages. reflexivity.
Qed.

(** C5.  With the endpoint URL absent or empty, every event is answered with
    status 500, [success] false and an error text that names the missing
    variable; nothing but that error is printed. *)
Theorem unset_endpoint_fails
        (json_loads : string -> result value) (json_dumps : value -> string)
        (urlopen : request -> url_result) (event : value) :
  lambda_handler None json_loads json_dumps urlopen event
  = (inr (error_envelope json_dumps config_error_text),
     [[Lit "Error:"; Lit config_error_text]]) /\
  lambda_handler (Some "") json_loads json_dumps urlopen event
  = (inr (error_envelope json_dumps config_error_text),
     [[Lit "Error:"; Lit config_error_text]]) /\
  contains "FASTAPI_ENDPOINT_URL" config_error_text = true.
Proof. repeat split. Qed.

(** C6.  The handler has reached the call (the endpoint is set, the claims
    were read and the body was parsed) and the endpoint replies 200 with a
    JSON object that has no [generated_text], or has the empty string there.
    Then the answer is status 500 with [success] false and the error text
    that no generated content was received. *)
Theorem missing_generated_text_fails
        (endpoint : option string) (json_loads : string -> result value)
        (json_dumps : value -> string) (urlopen : request -> url_result)
        (event m h : value) (text : string) (d : dict) :
  endpoint_unset endpoint = false ->
  fst (authenticated_user event) = inr tt ->
  fst (request_body json_loads event) = inr (m, h) ->
  urlopen (fastapi_request endpoint json_dumps m h) = Response 200 (inr text) ->
  json_loads text = inr (VDict d) ->
  dict_lookup "generated_text" d = None
  \/ dict_lookup "generated_text" d = Some (VStr "") ->
  fst (lambda_handler endpoint json_loads json_dumps urlopen event)
  = inr {| statusCode := 500;
           headers := cors_headers;
           body := json_dumps (VDict [("success", VBool false);
                                      ("error", VStr no_content_text)]) |}.
Proof.
  intros Hset Hauth Hreq Hurl Htext Hgen.
  rewrite handler_catches, (body_after_parsing _ _ _ _ _ m h Hset Hauth Hreq).
  unfold call_fastapi. rewrite Hurl. simpl Z.eqb. run. rewrite Htext. run.
  simpl. destruct Hgen as [-> | ->]; reflexivity.
Qed.

(** C6, the instance of the specification: the reply is the empty object. *)
Lemma missing_generated_text_witness :
  fst (example_handler (replies "{}") (event_of_body "{'message': 'hi'}"))
  = inr (error_envelope MiniJson.dumps no_content_text).
Proof.
  apply (missing_generated_text_fails example_endpoint MiniJson.loads
           MiniJson.dumps (fastapi_stub (replies "{}"))
           (event_of_body "{'message': 'hi'}") (VStr "hi") (VList [])
           (MiniJson.dq "{}") []);
    try reflexivity.
  left. reflexivity.
Defined.

(** X18 (supporting C7): a status other than 200 fails the invocation with an
    error text that contains the status code, whether [urlopen] returns the
    reply or raises HTTPError for it, provided that in the latter case the
    body of the error reply is not readable or decodes as UTF-8. *)
Lemma status_error_names_code
      (endpoint : option string) (json_loads : string -> result value)
      (json_dumps : value -> string) (urlopen : request -> url_result)
      (event m h : value) (code : Z) :
  endpoint_unset endpoint = false ->
  fst (authenticated_user event) = inr tt ->
  fst (request_body json_loads event) = inr (m, h) ->
  (exists read_text,
      urlopen (fastapi_request endpoint json_dumps m h) = Response code read_text
      /\ code <> 200%Z)
  \/ (exists reason readable read_text,
         urlopen (fastapi_request endpoint json_dumps m h)
         = HTTPError code reason readable read_text
         /\ (readable = false \/ exists content, read_text = inr content)) ->
  exists error_text,
    fst (lambda_handler endpoint json_loads json_dumps urlopen event)
    = inr (error_envelope json_dumps error_text) /\
    contains (str_int code) error_text = true.
Proof.
  intros Hset Hauth Hreq Hurl.
  rewrite handler_catches, (body_after_parsing _ _ _ _ _ m h Hset Hauth Hreq).
  unfold call_fastapi.
  destruct Hurl as [(rd & -> & Hne) | (reason & rdb & rd & -> & Hrd)].
  - apply Z.eqb_neq in Hne. rewrite Hne. run.
    eexists. split; [reflexivity |].
    rewrite <- (append_empty (str_int code)) at 2. apply contains_app.
  - destruct Hrd as [-> | [content ->]]; [| destruct rdb]; run;
      eexists; (split; [reflexivity | apply contains_app]).
Qed.

(** C7 fails on the code.  The endpoint answers 404 with a body that is not
    UTF-8: reading the details of the error for the log raises before the
    error that carries the status is built, and the text of the answer does
    not contain 404. *)
Theorem undecodable_error_body_hides_status :
  fst (example_handler (HTTPError 404 "Not Found" true (inl undecodable))
                       (event_of_body "{'message': 'hi'}"))
  = inr (error_envelope MiniJson.dumps (str_exn undecodable)) /\
  contains (str_int 404) (str_exn undecodable) = false.
Proof. split; vm_compute; reflexivity. Qed.

(** C8.  An event whose body parses as a JSON object without a [message]
    key is answered with status 500 and [success] false. *)
Theorem missing_message_fails
        (endpoint : option string) (json_loads : string -> result value)
        (json_dumps : value -> string) (urlopen : request -> url_result)
        (e b : dict) (raw : string) :
  dict_lookup "body" e = Some (VStr raw) ->
  json_loads raw = inr (VDict b) ->
  dict_lookup "message" b = None ->
  exists error_text,
    fst (lambda_handler endpoint json_loads json_dumps urlopen (VDict e))
    = inr {| statusCode := 500;
             headers := cors_headers;
             body := json_dumps (VDict [("success", VBool false);
                                        ("error", VStr error_text)]) |}.
Proof.
  intros Hbody Hraw Hm. rewrite handler_catches, body_outcome.
  assert (Hreq : fst (request_body json_loads (VDict e))
                 = inl (Exn KeyError (repr_key "message"))).
  { unfold request_body. run. simpl. rewrite Hbody. simpl. rewrite Hraw.
    run. simpl. rewrite Hm. reflexivity. }
  rewrite Hreq.
  destruct (endpoint_unset endpoint); [eexists; reflexivity |].
  destruct (fst (authenticated_user (VDict e))); eexists; reflexivity.
Qed.

(** C8, an instance: the body has a key [text] but no [message]. *)
Lemma missing_message_witness :
  exists error_text,
    fst (example_handler (replies "{'generated_text': 'X'}")
                         (event_of_body "{'text': 'hi'}"))
    = inr (error_envelope MiniJson.dumps error_text).
Proof.
  apply (missing_message_fails example_endpoint MiniJson.loads MiniJson.dumps
           (fastapi_stub (replies "{'generated_text': 'X'}"))
           [("body", VStr (MiniJson.dq "{'text': 'hi'}"))]
           [("text", VStr "hi")]
           (MiniJson.dq "{'text': 'hi'}"));
    reflexivity.
Defined.

Lemma bind_ext {A B} (c : M A) (k1 k2 : A -> M B) :
  (forall a, k1 a = k2 a) -> bind c k1 = bind c k2.
Proof. intros H. unfold bind. destruct (fst c); [| rewrite H]; reflexivity. Qed.

(** C10.  For every event, of whatever shape, and every behaviour of the
    codec and of the network, the handler returns an envelope and raises
    nothing, and the status of the envelope is 200 or 500. *)
Theorem lambda_handler_total
        (endpoint : option string) (json_loads : string -> result value)
        (json_dumps : value -> string) (urlopen : request -> url_result)
        (event : value) :
  exists env,
    fst (lambda_handler endpoint json_loads json_dumps urlopen event) = inr env
    /\ (statusCode env = 200%Z \/ statusCode env = 500%Z).
Proof.
  rewrite handler_catches.
  destruct (fst (handler_body endpoint json_loads json_dumps urlopen event))
    as [e | env] eqn:Hbd.
  - eexists. split; [reflexivity |]. right. reflexivity.
  - exists env. split; [reflexivity |]. left.
    apply body_returns_success in Hbd.
    destruct Hbd as (m & h & r & messages & _ & _ & _ & _ & ->). reflexivity.
Qed.

(** Supporting C10: the malformed events that the totality claim lists, each
    answered with the error envelope for the exception that it provokes. *)
Lemma malformed_events_answered :
  let answer := example_handler (replies "{'generated_text': 'X'}") in
  (* no [body] key *)
  fst (answer (VDict [])) = inr (error_envelope MiniJson.dumps "'body'") /\
  (* a body that is not JSON *)
  fst (answer (event_of_body "hi there"))
  = inr (error_envelope MiniJson.dumps "Expecting value") /\
  (* a [requestContext] that is not a mapping *)
  fst (answer (VDict [("requestContext", VInt 7);
                      ("body", VStr (MiniJson.dq "{'message': 'hi'}"))]))
  = inr (error_envelope MiniJson.dumps "argument of type 'int' is not iterable") /\
  (* a [conversationHistory] that is not a sequence *)
  fst (answer (event_of_body "{'message': 'hi', 'conversationHistory': 'none'}"))
  = inr (error_envelope MiniJson.dumps "'str' object has no attribute 'copy'") /\
  (* an event that is not a mapping at all *)
  fst (answer VNone)
  = inr (error_envelope MiniJson.dumps "argument of type 'NoneType' is not iterable").
Proof. repeat split; vm_compute; reflexivity. Qed.

(* ------------------------------------------------------------------ *)
(** ** The region of a function ARN *)

Lemma contains_colon_cons (c : ascii) (s : string) :
  contains ":" (String c s) = (Ascii.eqb c ":" || contains ":" s)%bool.
Proof.
  cbn [contains String.prefix].
  destruct (ascii_dec ":" c) as [<- | Hne].
  - destruct s; reflexivity.
  - destruct (Ascii.eqb_spec c ":") as [-> | _]; [contradiction | reflexivity].
Qed.

Lemma strip_prefix_app (p s : string) : strip_prefix p (p ++ s) = Some s.
Proof.
  induction p as [| a p IH]; simpl; [reflexivity |].
  rewrite Ascii.eqb_refl. exact IH.
Qed.

Lemma strip_prefix_inv (p s rest : string) :
  strip_prefix p s = Some rest -> s = p ++ rest.
Proof.
  revert s. induction p as [| a p IH]; intros s; simpl.
  - intros [= ->]. reflexivity.
  - destruct s as [| b s]; [discriminate |].
    destruct (Ascii.eqb_spec a b) as [-> | _]; [| discriminate].
    intros H. rewrite (IH _ H). reflexivity.
Qed.

Lemma prefix_inv (p s : string) :
  String.prefix p s = true -> exists rest, s = p ++ rest.
Proof.
  revert s. induction p as [| a p IH]; intros s; simpl.
  - intros _. exists s. reflexivity.
  - destruct s as [| b s]; cbn [String.prefix]; [discriminate |].
    destruct (ascii_dec a b) as [-> | _]; [| discriminate].
    intros H. destruct (IH _ H) as [rest ->]. exists rest. reflexivity.
Qed.

(** A run of characters other than a colon, followed by a colon, is the run
    that is read. *)
Lemma span_region_app (region rest : string) :
  contains ":" region = false ->
  span_region (region ++ String ":" rest) = (region, String ":" rest).
Proof.
  induction region as [| c region IH]; intros Hfree.
  - reflexivity.
  - rewrite contains_colon_cons in Hfree.
    apply orb_false_iff in Hfree. destruct Hfree as [Hc Hfree].
    simpl. rewrite Hc, (IH Hfree). reflexivity.
Qed.

(** The run that is read has no colon, and the text is the run and the
    rest. *)
Lemma span_region_inv (s run tail : string) :
  span_region s = (run, tail) ->
  s = run ++ tail /\ contains ":" run = false.
Proof.
  revert run tail. induction s as [| c s IH]; intros run tail; simpl.
  - intros [= <- <-]. split; reflexivity.
  - destruct (Ascii.eqb c ":") eqn:Hc.
    + intros [= <- <-]. split; reflexivity.
    + destruct (span_region s) as [run' tail'].
      intros [= <- <-]. destruct (IH _ _ eq_refl) as [-> Hfree].
      split; [reflexivity |].
      rewrite contains_colon_cons, Hc, Hfree. reflexivity.
Qed.

Lemma match_region_at_app (region rest : string) :
  region <> "" ->
  contains ":" region = false ->
  match_region_at ("arn:aws:lambda:" ++ region ++ String ":" rest)
  = Some region.
Proof.
  intros Hne Hfree. unfold match_region_at.
  rewrite strip_prefix_app, (span_region_app _ _ Hfree).
  destruct region; [contradiction | reflexivity].
Qed.

Lemma match_region_at_inv (s region : string) :
  match_region_at s = Some region ->
  region <> "" /\ contains ":" region = false /\
  exists rest, s = "arn:aws:lambda:" ++ region ++ String ":" rest.
Proof.
  unfold match_region_at.
  destruct (strip_prefix "arn:aws:lambda:" s) as [after |] eqn:Hstrip;
    [| discriminate].
  destruct (span_region after) as [run tail] eqn:Hspan.
  destruct run as [| c run]; [discriminate |].
  destruct tail as [| t tail]; [discriminate |].
  destruct (Ascii.eqb_spec t ":") as [-> | Hne].
  - cbn. intros [= <-]. apply span_region_inv in Hspan.
    destruct Hspan as [-> Hfree].
    split; [discriminate |]. split; [exact Hfree |].
    exists tail. apply (strip_prefix_inv _ _ _ Hstrip).
  - intros H. exfalso.
    destruct t as [[] [] [] [] [] [] [] []]; try discriminate H.
    apply Hne. reflexivity.
Qed.

Lemma region_pattern_app (region rest : string) :
  "arn:aws:lambda:" ++ region ++ String ":" rest
  = ("arn:aws:lambda:" ++ region ++ ":") ++ rest.
Proof.
  cbn. do 15 f_equal.
  induction region as [| c region IH]; cbn; [| rewrite IH]; reflexivity.
Qed.

Lemma contains_tail (needle : string) (c : ascii) (hay : string) :
  contains needle hay = true -> contains needle (String c hay) = true.
Proof. intros H. cbn [contains]. rewrite H. apply orb_true_r. Qed.

Lemma search_region_inv (s region : string) :
  search_region s = Some region ->
  region <> "" /\ contains ":" region = false /\
  contains ("arn:aws:lambda:" ++ region ++ ":") s = true.
Proof.
  induction s as [| c s IH]; cbn [search_region].
  - destruct (match_region_at "") eqn:Hm; [| discriminate].
    intros [= ->]. destruct (match_region_at_inv _ _ Hm) as (_ & _ & rest & H).
    discriminate H.
  - destruct (match_region_at (String c s)) as [found |] eqn:Hm.
    + intros [= ->].
      destruct (match_region_at_inv _ _ Hm) as (Hne & Hfree & rest & Heq).
      split; [exact Hne |]. split; [exact Hfree |].
      rewrite Heq, (region_pattern_app region rest).
      apply contains_prefix, prefix_app.
    + intros H. destruct (IH H) as (Hne & Hfree & Hin).
      split; [exact Hne |]. split; [exact Hfree |].
      apply contains_tail, Hin.
Qed.

(** X1.  A well-formed function ARN gives its region: the text between the
    prefix [arn:aws:lambda:] and the next colon, when that text is not empty
    and has no colon. *)
Theorem region_of_lambda_arn (region rest : string) :
  region <> "" ->
  contains ":" region = false ->
  extract_region_from_arn ("arn:aws:lambda:" ++ region ++ ":" ++ rest)
  = region.
Proof.
  intros Hne Hfree. unfold extract_region_from_arn.
  change (":" ++ rest) with (String ":" rest).
  assert (Hm := match_region_at_app region rest Hne Hfree).
  cbn [append] in *. cbn [search_region]. rewrite Hm. reflexivity.
Qed.

Lemma region_of_lambda_arn_witness :
  extract_region_from_arn
    ("arn:aws:lambda:" ++ "ap-northeast-1" ++ ":"
     ++ "123456789012:function:chat")
  = "ap-northeast-1".
Proof.
  apply (region_of_lambda_arn "ap-northeast-1" "123456789012:function:chat");
    [discriminate | reflexivity].
Defined.

(** X2.  Whatever the argument, the region returned is not empty and has no
    colon in it. *)
Theorem region_is_well_formed (arn : string) :
  extract_region_from_arn arn <> "" /\
  contains ":" (extract_region_from_arn arn) = false.
Proof.
  unfold extract_region_from_arn.
  destruct (search_region arn) as [region |] eqn:Hs.
  - destruct (search_region_inv _ _ Hs) as (Hne & Hfree & _).
    split; assumption.
  - split; [discriminate | reflexivity].
Qed.

(** X3.  An argument in which [arn:aws:lambda:] does not occur, such as the
    ARN of another partition, gives the default region [us-east-1]. *)
Theorem region_defaults_without_prefix (arn : string) :
  contains "arn:aws:lambda:" arn = false ->
  extract_region_from_arn arn = "us-east-1".
Proof.
  intros Hno. unfold extract_region_from_arn.
  destruct (search_region arn) as [region |] eqn:Hs; [| reflexivity].
  exfalso. induction arn as [| c arn IH].
  - cbn [search_region] in Hs.
    destruct (match_region_at "") eqn:Hm; discriminate.
  - cbn [contains] in Hno. apply orb_false_iff in Hno.
    destruct Hno as [Hhere Hlater].
    cbn [search_region] in Hs.
    destruct (match_region_at (String c arn)) as [found |] eqn:Hm.
    + destruct (match_region_at_inv _ _ Hm) as (_ & _ & rest & Heq).
      rewrite Heq, prefix_app in Hhere. discriminate.
    + apply (IH Hlater Hs).
Qed.

Lemma region_defaults_without_prefix_witness :
  extract_region_from_arn "arn:aws-cn:lambda:cn-north-1:123456789012:function:chat"
  = "us-east-1".
Proof.
  apply (region_defaults_without_prefix
           "arn:aws-cn:lambda:cn-north-1:123456789012:function:chat").
  reflexivity.
Defined.

(** X4.  The region returned is the default, or it is read off the argument:
    then [arn:aws:lambda:], the region and a colon occur in the argument,
    in a row. *)
Theorem region_comes_from_arn (arn : string) :
  extract_region_from_arn arn = "us-east-1" \/
  contains ("arn:aws:lambda:" ++ extract_region_from_arn arn ++ ":") arn = true.
Proof.
  unfold extract_region_from_arn.
  destruct (search_region arn) as [region |] eqn:Hs; [right | left; reflexivity].
  apply (search_region_inv _ _ Hs).
Qed.

(** X5.  When the argument holds a region anywhere (the prefix, a non-empty
    text without a colon, a colon), a region that the argument holds is
    returned: the default is no fallback then. *)
Theorem region_found_when_present (arn region : string) :
  region <> "" ->
  contains ":" region = false ->
  contains ("arn:aws:lambda:" ++ region ++ ":") arn = true ->
  contains ("arn:aws:lambda:" ++ extract_region_from_arn arn ++ ":") arn = true.
Proof.
  intros Hne Hfree Hin.
  assert (Hfound : exists found, search_region arn = Some found).
  { induction arn as [| c arn IH].
    - cbn in Hin. discriminate.
    - cbn [contains] in Hin. cbn [search_region].
      destruct (match_region_at (String c arn)) as [found |] eqn:Hm;
        [exists found; reflexivity |].
      apply orb_true_iff in Hin. destruct Hin as [Hhere | Hlater].
      + apply prefix_inv in Hhere. destruct Hhere as [rest Heq].
        rewrite <- (region_pattern_app region rest) in Heq.
        rewrite Heq, (match_region_at_app _ _ Hne Hfree) in Hm. discriminate.
      + apply (IH Hlater). }
  destruct Hfound as [found Hs]. unfold extract_region_from_arn. rewrite Hs.
  apply (search_region_inv _ _ Hs).
Qed.

Lemma region_found_when_present_witness :
  contains ("arn:aws:lambda:" ++ extract_region_from_arn
                "see arn:aws:lambda::x and arn:aws:lambda:eu-west-1:42" ++ ":")
           "see arn:aws:lambda::x and arn:aws:lambda:eu-west-1:42" = true.
Proof.
  apply (region_found_when_present
           "see arn:aws:lambda::x and arn:aws:lambda:eu-west-1:42" "eu-west-1");
    [discriminate | reflexivity | reflexivity].
Defined.

(* ------------------------------------------------------------------ *)
(** ** More on the handler: the outbound call *)

Lemma snd_bind {A B} (c : M A) (k : A -> M B) :
  snd (bind c k) = match fst c with
                   | inl _ => snd c
                   | inr a => (snd c ++ snd (k a))%list
                   end.
Proof. unfold bind. destruct (fst c); reflexivity. Qed.

(** Two continuations that agree on the value a computation returns give
    the same sequence. *)
Lemma bind_ext_on {A B} (c : M A) (k1 k2 : A -> M B) :
  (forall a, fst c = inr a -> k1 a = k2 a) -> bind c k1 = bind c k2.
Proof.
  intros H. unfold bind. destruct (fst c) as [e | a]; [reflexivity |].
  rewrite (H a eq_refl). reflexivity.
Qed.

(** The handler asks the network about one request at most: the one built
    from the message and the history that the body gives. *)
Lemma handler_asks_once
      (endpoint : option string) (json_loads : string -> result value)
      (json_dumps : value -> string)
      (urlopen1 urlopen2 : request -> url_result) (event : value) :
  (forall m h,
      endpoint_unset endpoint = false ->
      fst (authenticated_user event) = inr tt ->
      fst (request_body json_loads event) = inr (m, h) ->
      urlopen1 (fastapi_request endpoint json_dumps m h)
      = urlopen2 (fastapi_request endpoint json_dumps m h)) ->
  lambda_handler endpoint json_loads json_dumps urlopen1 event
  = lambda_handler endpoint json_loads json_dumps urlopen2 event.
Proof.
  intros Hsame.
  assert (Hbody : handler_body endpoint json_loads json_dumps urlopen1 event
                  = handler_body endpoint json_loads json_dumps urlopen2 event).
  { unfold handler_body.
    apply bind_ext_on. intros u Hset.
    assert (Hset' : endpoint_unset endpoint = false)
      by (destruct (endpoint_unset endpoint); [discriminate Hset | reflexivity]).
    apply bind_ext. intros _.
    apply bind_ext_on. intros [] Hauth.
    apply bind_ext_on. intros [m h] Hreq.
    do 2 (apply bind_ext; intros _).
    unfold call_fastapi. rewrite (Hsame m h Hset' Hauth Hreq). reflexivity. }
  unfold lambda_handler. rewrite Hbody. reflexivity.
Qed.

(** X6.  The one request that goes out: a POST to the configured URL with
    the header [Content-Type: application/json] and the JSON text of
    [{prompt: message, conversationHistory: history}], the history as the
    body has it (the empty list when absent).  Two networks that answer this
    request alike yield the same envelope and the same printed lines. *)
Theorem outbound_request
        (url : string) (json_loads : string -> result value)
        (json_dumps : value -> string)
        (urlopen1 urlopen2 : request -> url_result)
        (e b : dict) (raw : string) (m : value) :
  dict_lookup "body" e = Some (VStr raw) ->
  json_loads raw = inr (VDict b) ->
  dict_lookup "message" b = Some m ->
  urlopen1 {| full_url := url;
              data := json_dumps
                        (VDict [("prompt", m);
                                ("conversationHistory", history_of b)]);
              request_headers := [("Content-Type", "application/json")];
              method := "POST" |}
  = urlopen2 {| full_url := url;
                data := json_dumps
                          (VDict [("prompt", m);
                                  ("conversationHistory", history_of b)]);
                request_headers := [("Content-Type", "application/json")];
                method := "POST" |} ->
  lambda_handler (Some url) json_loads json_dumps urlopen1 (VDict e)
  = lambda_handler (Some url) json_loads json_dumps urlopen2 (VDict e).
Proof.
  intros Hbody Hraw Hm Hsame. apply handler_asks_once.
  intros m' h' _ _ Hreq.
  destruct (body_parsed_as _ _ _ _ _ _ _ Hbody Hraw Hm Hreq) as [-> ->].
  exact Hsame.
Qed.

(** X6, an instance: a network that answers only the expected request, and
    one that answers every request. *)
Lemma outbound_request_witness :
  lambda_handler (Some "http://fastapi.example/generate")
    MiniJson.loads MiniJson.dumps
    (fun req =>
       if String.eqb (data req)
            (MiniJson.dq "{'prompt': 'hi', 'conversationHistory': []}")
       then replies "{'generated_text': 'X'}"
       else URLError "unexpected request")
    (event_of_body "{'message': 'hi'}")
  = lambda_handler (Some "http://fastapi.example/generate")
      MiniJson.loads MiniJson.dumps
      (fun _ => replies "{'generated_text': 'X'}")
      (event_of_body "{'message': 'hi'}").
Proof.
  apply (outbound_request "http://fastapi.example/generate"
           MiniJson.loads MiniJson.dumps
           (fun req =>
              if String.eqb (data req)
                   (MiniJson.dq "{'prompt': 'hi', 'conversationHistory': []}")
              then replies "{'generated_text': 'X'}"
              else URLError "unexpected request")
           (fun _ => replies "{'generated_text': 'X'}")
           [("body", VStr (MiniJson.dq "{'message': 'hi'}"))]
           [("message", VStr "hi")]
           (MiniJson.dq "{'message': 'hi'}") (VStr "hi"));
    reflexivity.
Defined.

(** X7.  No request goes out for an invocation that fails before the call:
    with the endpoint unset, or an error in reading the claims or in parsing
    the body, the answer and the printed lines are the same whatever the
    network would do. *)
Theorem no_call_before_parsing
        (endpoint : option string) (json_loads : string -> result value)
        (json_dumps : value -> string)
        (urlopen1 urlopen2 : request -> url_result) (event : value) :
  endpoint_unset endpoint = true
  \/ (exists err, fst (authenticated_user event) = inl err)
  \/ (exists err, fst (request_body json_loads event) = inl err) ->
  lambda_handler endpoint json_loads json_dumps urlopen1 event
  = lambda_handler endpoint json_loads json_dumps urlopen2 event.
Proof.
  intros Hfails. apply handler_asks_once. intros m h Hset Hauth Hreq.
  destruct Hfails as [Hunset | [[err Herr] | [err Herr]]];
    congruence.
Qed.

(** X7, an instance: the body is no JSON, and one network answers while the
    other is down. *)
Lemma no_call_before_parsing_witness :
  example_handler (replies "{'generated_text': 'X'}") (event_of_body "hi there")
  = example_handler (URLError "timed out") (event_of_body "hi there").
Proof.
  apply (no_call_before_parsing example_endpoint MiniJson.loads MiniJson.dumps
           (fastapi_stub (replies "{'generated_text': 'X'}"))
           (fastapi_stub (URLError "timed out"))
           (event_of_body "hi there")).
  right. right. eexists. reflexivity.
Defined.

(* ------------------------------------------------------------------ *)
(** ** More on the handler: the reply *)

(** X8.  A [generated_text] that is falsy in Python ([null], [false], [0],
    [0.0], the empty string, list or object) counts as missing: once the
    call is reached and the reply is a 200 JSON object with such a value,
    the answer is 500 with the no-content text. *)
Theorem falsy_generated_text_fails
        (endpoint : option string) (json_loads : string -> result value)
        (json_dumps : value -> string) (urlopen : request -> url_result)
        (event m h r : value) (text : string) (d : dict) :
  endpoint_unset endpoint = false ->
  fst (authenticated_user event) = inr tt ->
  fst (request_body json_loads event) = inr (m, h) ->
  urlopen (fastapi_request endpoint json_dumps m h) = Response 200 (inr text) ->
  json_loads text = inr (VDict d) ->
  dict_lookup "generated_text" d = Some r ->
  truthy r = false ->
  fst (lambda_handler endpoint json_loads json_dumps urlopen event)
  = inr (error_envelope json_dumps no_content_text).
Proof.
  intros Hset Hauth Hreq Hurl Htext Hgen Hfalsy.
  rewrite handler_catches, (body_after_parsing _ _ _ _ _ m h Hset Hauth Hreq).
  unfold call_fastapi. rewrite Hurl. simpl Z.eqb. run. rewrite Htext. run.
  simpl. rewrite Hgen, Hfalsy. reflexivity.
Qed.

(** X8, an instance: the reply says [generated_text: 0]. *)
Lemma falsy_generated_text_witness :
  fst (example_handler (replies "{'generated_text': 0}")
                       (event_of_body "{'message': 'hi'}"))
  = inr (error_envelope MiniJson.dumps no_content_text).
Proof.
  apply (falsy_generated_text_fails example_endpoint MiniJson.loads
           MiniJson.dumps (fastapi_stub (replies "{'generated_text': 0}"))
           (event_of_body "{'message': 'hi'}") (VStr "hi") (VList [])
           (VInt 0) (MiniJson.dq "{'generated_text': 0}")
           [("generated_text", VInt 0)]);
    reflexivity.
Defined.

(** X9.  Neither the message nor the generated text is checked for being a
    string: for a message that is any scalar JSON value that can be printed
    ([null], a boolean, a number, a string without a lone surrogate, the
    empty string included) and a [generated_text] that is any truthy scalar
    JSON value, the reply is relayed under status 200, the message as the
    content of the user turn and the generated value as the response and as
    the content of the assistant turn. *)
Theorem relays_any_values
        (endpoint : option string) (json_loads : string -> result value)
        (json_dumps : value -> string) (urlopen : request -> url_result)
        (e b d : dict) (raw text : string) (m r : value) (hist : list value) :
  endpoint_unset endpoint = false ->
  claims_readable e = true ->
  dict_lookup "body" e = Some (VStr raw) ->
  json_loads raw = inr (VDict b) ->
  dict_lookup "message" b = Some m ->
  scalar m = true ->
  printable m = true ->
  history_of b = VList hist ->
  urlopen (fastapi_request endpoint json_dumps m (VList hist))
  = Response 200 (inr text) ->
  json_loads text = inr (VDict d) ->
  dict_lookup "generated_text" d = Some r ->
  scalar r = true ->
  truthy r = true ->
  fst (lambda_handler endpoint json_loads json_dumps urlopen (VDict e))
  = inr {| statusCode := 200;
           headers := cors_headers;
           body := json_dumps
                     (VDict [("success", VBool true);
                             ("response", r);
                             ("conversationHistory",
                              VList (hist ++ [VDict [("role", VStr "user");
                                                     ("content", m)];
                                              VDict [("role", VStr "assistant");
                                                     ("content", r)]])%list)])
        |}.
Proof.
  intros Hset Hclaims Hbody Hraw Hmsg _ Hprint Hhist Hurl Htext Hgen _ Htrue.
  rewrite handler_catches.
  rewrite (body_after_parsing _ _ _ _ _ m (VList hist) Hset
             (claims_read e Hclaims)).
  - rewrite (call_replied _ _ _ _ _ _ _ _ _ Hurl Htext Hgen Htrue).
    reflexivity.
  - rewrite <- Hhist. apply (body_parsed _ _ _ _ _ Hbody Hraw Hmsg Hprint).
Qed.

(** X9, an instance: the message is [null] and the generated text is the
    number 7. *)
Lemma relays_any_values_witness :
  fst (example_handler (replies "{'generated_text': 7}")
                       (event_of_body "{'message': null}"))
  = inr (success_envelope MiniJson.dumps (VInt 7)
           (VList [turn "user" VNone; turn "assistant" (VInt 7)])).
Proof.
  apply (relays_any_values example_endpoint MiniJson.loads MiniJson.dumps
           (fastapi_stub (replies "{'generated_text': 7}"))
           [("body", VStr (MiniJson.dq "{'message': null}"))]
           [("message", VNone)]
           [("generated_text", VInt 7)]
           (MiniJson.dq "{'message': null}")
           (MiniJson.dq "{'generated_text': 7}")
           VNone (VInt 7) []);
    reflexivity.
Defined.

(** X10.  A 200 reply whose JSON text is not an object (a list, a string, a
    number, [null]) fails the invocation at [api_response.get]: the answer
    is 500 and the error text names the type that has no [get]. *)
Theorem reply_not_an_object_fails
        (endpoint : option string) (json_loads : string -> result value)
        (json_dumps : value -> string) (urlopen : request -> url_result)
        (event m h reply : value) (text : string) :
  endpoint_unset endpoint = false ->
  fst (authenticated_user event) = inr tt ->
  fst (request_body json_loads event) = inr (m, h) ->
  urlopen (fastapi_request endpoint json_dumps m h) = Response 200 (inr text) ->
  json_loads text = inr reply ->
  (forall d, reply <> VDict d) ->
  fst (lambda_handler endpoint json_loads json_dumps urlopen event)
  = inr (error_envelope json_dumps
           ("'" ++ type_name reply ++ "' object has no attribute 'get'")).
Proof.
  intros Hset Hauth Hreq Hurl Htext Hnot.
  rewrite handler_catches, (body_after_parsing _ _ _ _ _ m h Hset Hauth Hreq).
  unfold call_fastapi. rewrite Hurl. simpl Z.eqb. run. rewrite Htext. run.
  destruct reply; try reflexivity. exfalso. apply (Hnot entries). reflexivity.
Qed.

(** X10, an instance: the reply is a JSON list. *)
Lemma reply_not_an_object_witness :
  fst (example_handler (replies "[{'generated_text': 'X'}]")
                       (event_of_body "{'message': 'hi'}"))
  = inr (error_envelope MiniJson.dumps "'list' object has no attribute 'get'").
Proof.
  apply (reply_not_an_object_fails example_endpoint MiniJson.loads
           MiniJson.dumps
           (fastapi_stub (replies "[{'generated_text': 'X'}]"))
           (event_of_body "{'message': 'hi'}") (VStr "hi") (VList [])
           (VList [VDict [("generated_text", VStr "X")]])
           (MiniJson.dq "[{'generated_text': 'X'}]"));
    try reflexivity.
  intros d. discriminate.
Defined.

(** X11.  A reply that cannot be read or decoded, or whose text is no JSON,
    fails the invocation with the text of that error. *)
Theorem unreadable_reply_fails
        (endpoint : option string) (json_loads : string -> result value)
        (json_dumps : value -> string) (urlopen : request -> url_result)
        (event m h : value) (read_text : result string) (err : exn) :
  endpoint_unset endpoint = false ->
  fst (authenticated_user event) = inr tt ->
  fst (request_body json_loads event) = inr (m, h) ->
  urlopen (fastapi_request endpoint json_dumps m h) = Response 200 read_text ->
  read_text = inl err
  \/ (exists text, read_text = inr text /\ json_loads text = inl err) ->
  fst (lambda_handler endpoint json_loads json_dumps urlopen event)
  = inr (error_envelope json_dumps (str_exn err)).
Proof.
  intros Hset Hauth Hreq Hurl Hbad.
  rewrite handler_catches, (body_after_parsing _ _ _ _ _ m h Hset Hauth Hreq).
  unfold call_fastapi. rewrite Hurl. simpl Z.eqb.
  destruct Hbad as [-> | (text & -> & Htext)]; run; [reflexivity |].
  rewrite Htext. reflexivity.
Qed.

(** X11, an instance: the reply is an HTML page. *)
Lemma unreadable_reply_witness :
  fst (example_handler (replies "<html>Bad Gateway</html>")
                       (event_of_body "{'message': 'hi'}"))
  = inr (error_envelope MiniJson.dumps "Expecting value").
Proof.
  apply (unreadable_reply_fails example_endpoint MiniJson.loads MiniJson.dumps
           (fastapi_stub (replies "<html>Bad Gateway</html>"))
           (event_of_body "{'message': 'hi'}") (VStr "hi") (VList [])
           (inr (MiniJson.dq "<html>Bad Gateway</html>"))
           (MiniJson.decode_error "Expecting value"));
    try reflexivity.
  right. eexists. split; reflexivity.
Defined.

(* ------------------------------------------------------------------ *)
(** ** More on the handler: what a success takes *)

(** The body is parsed only for an event that is a mapping with a string
    body whose JSON text is an object with a message. *)
Lemma body_parsed_inv (json_loads : string -> result value)
      (event m h : value) :
  fst (request_body json_loads event) = inr (m, h) ->
  exists e raw b,
    event = VDict e /\
    dict_lookup "body" e = Some (VStr raw) /\
    json_loads raw = inr (VDict b) /\
    dict_lookup "message" b = Some m /\
    h = history_of b.
Proof.
  unfold request_body. run.
  destruct event as [| | | | | | e]; try discriminate. simpl.
  destruct (dict_lookup "body" e) as [[| | | | raw | |] |] eqn:Hbody;
    try discriminate.
  simpl. destruct (json_loads raw) as [err | [| | | | | | b]] eqn:Hraw;
    try discriminate.
  simpl. destruct (dict_lookup "message" b) as [m' |] eqn:Hm;
    [| discriminate].
  autorewrite with run.
  destruct (fst (print [Lit "Processing message:"; Fmt m']));
    [discriminate |].
  autorewrite with run. intros [= <- <-]. exists e, raw, b.
  repeat split; assumption.
Qed.

(** With an authorizer in the request context, the claims are read without
    an error only if they are there and are a mapping. *)
Lemma claims_read_inv (e request_context : dict) (authorizer : value) :
  dict_lookup "requestContext" e = Some (VDict request_context) ->
  dict_lookup "authorizer" request_context = Some authorizer ->
  fst (authenticated_user (VDict e)) = inr tt ->
  exists a claims,
    authorizer = VDict a /\ dict_lookup "claims" a = Some (VDict claims).
Proof.
  intros Hrc Ha. unfold authenticated_user.
  repeat (run; simpl; rewrite ?Hrc, ?Ha).
  destruct authorizer as [| | | | | | a]; try discriminate. simpl.
  destruct (dict_lookup "claims" a) as [[| | | | | | claims] |] eqn:Hc;
    try discriminate.
  intros _. exists a, claims. split; [reflexivity | exact Hc].
Qed.

(** X12.  The handler answers 200 only if the endpoint is set, the event is
    a mapping whose body is a string that parses as a JSON object with a
    message and with a history that is a list (or absent), and the endpoint
    replied 200 with the text of a JSON object whose [generated_text] is
    truthy. *)
Theorem success_only_when
        (endpoint : option string) (json_loads : string -> result value)
        (json_dumps : value -> string) (urlopen : request -> url_result)
        (event : value) (env : envelope) :
  fst (lambda_handler endpoint json_loads json_dumps urlopen event) = inr env ->
  statusCode env = 200%Z ->
  endpoint_unset endpoint = false /\
  exists e raw b m hist text d r,
    event = VDict e /\
    dict_lookup "body" e = Some (VStr raw) /\
    json_loads raw = inr (VDict b) /\
    dict_lookup "message" b = Some m /\
    history_of b = VList hist /\
    urlopen (fastapi_request endpoint json_dumps m (VList hist))
    = Response 200 (inr text) /\
    json_loads text = inr (VDict d) /\
    dict_lookup "generated_text" d = Some r /\
    truthy r = true.
Proof.
  intros Hrun Hcode. rewrite handler_catches in Hrun.
  destruct (fst (handler_body endpoint json_loads json_dumps urlopen event))
    as [err | env'] eqn:Hbd.
  - injection Hrun as <-. discriminate Hcode.
  - apply body_returns_success in Hbd.
    destruct Hbd as (m & h & r & messages & Hset & _ & Hreq & Hcall & _).
    split; [exact Hset |].
    apply body_parsed_inv in Hreq.
    destruct Hreq as (e & raw & b & -> & Hbody & Hraw & Hm & ->).
    apply call_returns in Hcall.
    destruct Hcall as (text & d & hist & Hurl & Htext & Hgen & Htrue & Hh & _).
    exists e, raw, b, m, hist, text, d, r.
    rewrite Hh in Hurl. repeat split; assumption.
Qed.

(** X12, an instance. *)
Lemma success_only_when_witness :
  endpoint_unset example_endpoint = false /\
  exists e raw b m hist text d r,
    event_of_body "{'message': 'hi'}" = VDict e /\
    dict_lookup "body" e = Some (VStr raw) /\
    MiniJson.loads raw = inr (VDict b) /\
    dict_lookup "message" b = Some m /\
    history_of b = VList hist /\
    fastapi_stub (replies "{'generated_text': 'X'}")
      (fastapi_request example_endpoint MiniJson.dumps m (VList hist))
    = Response 200 (inr text) /\
    MiniJson.loads text = inr (VDict d) /\
    dict_lookup "generated_text" d = Some r /\
    truthy r = true.
Proof.
  apply (success_only_when example_endpoint MiniJson.loads MiniJson.dumps
           (fastapi_stub (replies "{'generated_text': 'X'}"))
           (event_of_body "{'message': 'hi'}")
           (success_envelope MiniJson.dumps (VStr "X")
              (VList [turn "user" (VStr "hi"); turn "assistant" (VStr "X")])));
    reflexivity.
Defined.

(** X13.  For an event whose request context is a mapping with an
    [authorizer] entry, the handler answers 200 only if the authorizer is a
    mapping that has [claims], and the claims are a mapping. *)
Theorem success_needs_claims
        (endpoint : option string) (json_loads : string -> result value)
        (json_dumps : value -> string) (urlopen : request -> url_result)
        (e request_context : dict) (authorizer : value) (env : envelope) :
  dict_lookup "requestContext" e = Some (VDict request_context) ->
  dict_lookup "authorizer" request_context = Some authorizer ->
  fst (lambda_handler endpoint json_loads json_dumps urlopen (VDict e))
  = inr env ->
  statusCode env = 200%Z ->
  exists a claims,
    authorizer = VDict a /\ dict_lookup "claims" a = Some (VDict claims).
Proof.
  intros Hrc Ha Hrun Hcode. rewrite handler_catches in Hrun.
  destruct (fst (handler_body endpoint json_loads json_dumps urlopen (VDict e)))
    as [err | env'] eqn:Hbd.
  - injection Hrun as <-. discriminate Hcode.
  - apply body_returns_success in Hbd.
    destruct Hbd as (m & h & r & messages & _ & Hauth & _).
    apply (claims_read_inv _ _ _ Hrc Ha Hauth).
Qed.

(** X13, an instance. *)
Lemma success_needs_claims_witness :
  exists a claims,
    VDict [("claims", VDict [("email", VStr "a@b.c")])] = VDict a /\
    dict_lookup "claims" a = Some (VDict claims).
Proof.
  apply (success_needs_claims example_endpoint MiniJson.loads MiniJson.dumps
           (fastapi_stub (replies "{'generated_text': 'X'}"))
           [("requestContext",
             VDict [("authorizer",
                     VDict [("claims", VDict [("email", VStr "a@b.c")])])]);
            ("body", VStr (MiniJson.dq "{'message': 'hi'}"))]
           [("authorizer", VDict [("claims", VDict [("email", VStr "a@b.c")])])]
           (VDict [("claims", VDict [("email", VStr "a@b.c")])])
           (success_envelope MiniJson.dumps (VStr "X")
              (VList [turn "user" (VStr "hi"); turn "assistant" (VStr "X")])));
    reflexivity.
Defined.

(* ------------------------------------------------------------------ *)
(** ** More on the handler: what is printed *)

Lemma snd_try_except {A} (c : M A) (handler : exn -> M A) :
  snd (try_except c handler) = match fst c with
                               | inl e => (snd c ++ snd (handler e))%list
                               | inr _ => snd c
                               end.
Proof. unfold try_except. destruct (fst c); reflexivity. Qed.

(** X14.  With the endpoint set, the first line printed is the whole event
    as JSON text, whatever the event is and whether or not the invocation
    succeeds. *)
Theorem event_is_logged_first
        (endpoint : option string) (json_loads : string -> result value)
        (json_dumps : value -> string) (urlopen : request -> url_result)
        (event : value) :
  endpoint_unset endpoint = false ->
  exists later,
    snd (lambda_handler endpoint json_loads json_dumps urlopen event)
    = [Lit "Received event:"; Lit (json_dumps event)] :: later.
Proof.
  intros Hset. unfold lambda_handler. rewrite snd_try_except.
  unfold handler_body. rewrite Hset.
  rewrite fst_bind, !snd_bind. cbn [fst snd ret print app].
  match goal with
  | |- context [fst (bind ?c ?k)] =>
      destruct (fst (bind c k)); eexists; reflexivity
  end.
Qed.

(** X14, an instance. *)
Lemma event_is_logged_first_witness :
  exists later,
    snd (example_handler (replies "{}") VNone)
    = [Lit "Received event:"; Lit (MiniJson.dumps VNone)] :: later.
Proof.
  apply (event_is_logged_first example_endpoint MiniJson.loads MiniJson.dumps
           (fastapi_stub (replies "{}")) VNone).
  reflexivity.
Defined.



(** X16.  What a relay prints, for an event without a request context whose
    message is a scalar that can be printed and a reply whose generated text
    is a truthy scalar: the event, the message, the endpoint URL, the payload
    sent and the raw text of the reply, in this order and nothing else. *)
Theorem success_log
        (url : string) (json_loads : string -> result value)
        (json_dumps : value -> string) (urlopen : request -> url_result)
        (e b d : dict) (raw text : string) (m r : value) (hist : list value) :
  String.eqb url "" = false ->
  dict_lookup "requestContext" e = None ->
  dict_lookup "body" e = Some (VStr raw) ->
  json_loads raw = inr (VDict b) ->
  dict_lookup "message" b = Some m ->
  scalar m = true ->
  printable m = true ->
  history_of b = VList hist ->
  urlopen (fastapi_request (Some url) json_dumps m (VList hist))
  = Response 200 (inr text) ->
  json_loads text = inr (VDict d) ->
  dict_lookup "generated_text" d = Some r ->
  scalar r = true ->
  truthy r = true ->
  snd (lambda_handler (Some url) json_loads json_dumps urlopen (VDict e))
  = [[Lit "Received event:"; Lit (json_dumps (VDict e))];
     [Lit "Processing message:"; Fmt m];
     [Lit "Calling FastAPI endpoint: "; Lit url];
     [Lit "Sending data: ";
      Lit (json_dumps (VDict [("prompt", m);
                              ("conversationHistory", VList hist)]))];
     [Lit "Received response from FastAPI: "; Lit text]].
Proof.
  intros Hurl Hrc Hbody Hraw Hm _ Hprint Hhist Hopen Htext Hgen _ Htrue.
  assert (Hauth : authenticated_user (VDict e) = (inr tt, [])).
  { unfold authenticated_user, bind. simpl. rewrite Hrc. reflexivity. }
  assert (Hreq : request_body json_loads (VDict e)
                 = (inr (m, VList hist), [[Lit "Processing message:"; Fmt m]])).
  { unfold request_body, bind. simpl. rewrite Hbody. simpl. rewrite Hraw.
    simpl. rewrite Hm. simpl. fold (history_of b). rewrite Hhist.
    rewrite (print_value _ _ Hprint). reflexivity. }
  assert (Hcall : snd (call_fastapi (Some url) json_loads json_dumps urlopen
                         m (VList hist))
                  = [[Lit "Received response from FastAPI: "; Lit text]]
                  /\ exists answer,
                    fst (call_fastapi (Some url) json_loads json_dumps urlopen
                           m (VList hist)) = inr answer).
  { unfold call_fastapi. rewrite Hopen. simpl Z.eqb. unfold bind. simpl.
    rewrite Htext. simpl. rewrite Hgen, Htrue. simpl.
    split; [reflexivity | eexists; reflexivity]. }
  destruct Hcall as [Hprinted [[r' messages] Hanswer]].
  unfold lambda_handler, handler_body, endpoint_unset.
  rewrite Hurl, Hauth, Hreq.
  rewrite snd_try_except, !fst_bind, !snd_bind. cbn [fst snd ret print app].
  rewrite !fst_bind, !snd_bind. cbn [fst snd ret print app].
  rewrite Hanswer, Hprinted. reflexivity.
Qed.

(** X16, an instance. *)
Lemma success_log_witness :
  snd (example_handler (replies "{'generated_text': 'X'}")
                       (event_of_body "{'message': 'hi'}"))
  = [[Lit "Received event:";
      Lit (MiniJson.dumps (event_of_body "{'message': 'hi'}"))];
     [Lit "Processing message:"; Fmt (VStr "hi")];
     [Lit "Calling FastAPI endpoint: "; Lit "http://fastapi.example/generate"];
     [Lit "Sending data: ";
      Lit (MiniJson.dumps (VDict [("prompt", VStr "hi");
                                  ("conversationHistory", VList [])]))];
     [Lit "Received response from FastAPI: ";
      Lit (MiniJson.dq "{'generated_text': 'X'}")]].
Proof.
  apply (success_log "http://fastapi.example/generate"
           MiniJson.loads MiniJson.dumps
           (fastapi_stub (replies "{'generated_text': 'X'}"))
           [("body", VStr (MiniJson.dq "{'message': 'hi'}"))]
           [("message", VStr "hi")]
           [("generated_text", VStr "X")]
           (MiniJson.dq "{'message': 'hi'}")
           (MiniJson.dq "{'generated_text': 'X'}")
           (VStr "hi") (VStr "X") []);
    reflexivity.
Defined.

(** X18, an instance: the endpoint answers 503. *)
Lemma status_error_names_code_witness :
  exists error_text,
    fst (example_handler (HTTPError 503 "Service Unavailable" true (inr "busy"))
                         (event_of_body "{'message': 'hi'}"))
    = inr (error_envelope MiniJson.dumps error_text) /\
    contains (str_int 503) error_text = true.
Proof.
  apply (status_error_names_code example_endpoint MiniJson.loads MiniJson.dumps
           (fastapi_stub (HTTPError 503 "Service Unavailable" true (inr "busy")))
           (event_of_body "{'message': 'hi'}") (VStr "hi") (VList []) 503%Z);
    try reflexivity.
  right. exists "Service Unavailable", true, (inr "busy").
  split; [reflexivity |]. right. exists "busy". reflexivity.
Defined.

(** X19, an instance: the endpoint is down. *)
Lemma connection_failure_witness :
  fst (example_handler (URLError "[Errno 111] Connection refused")
                       (event_of_body "{'message': 'hi'}"))
  = inr (error_envelope MiniJson.dumps
           "Failed to connect to FastAPI endpoint: [Errno 111] Connection refused").
Proof.
  apply (connection_failure_fails example_endpoint MiniJson.loads
           MiniJson.dumps
           (fastapi_stub (URLError "[Errno 111] Connection refused"))
           (event_of_body "{'message': 'hi'}") (VStr "hi") (VList [])
           "[Errno 111] Connection refused");
    reflexivity.
Defined.

(** X20, an instance: the body is cut short. *)
Lemma unparseable_body_witness :
  exists error_text,
    fst (example_handler (replies "{'generated_text': 'X'}")
                         (event_of_body "{'message': "))
    = inr (error_envelope MiniJson.dumps error_text).
Proof.
  apply (unparseable_body_fails example_endpoint MiniJson.loads MiniJson.dumps
           (fastapi_stub (replies "{'generated_text': 'X'}"))
           [("body", VStr (MiniJson.dq "{'message': "))]
           (MiniJson.dq "{'message': ")
           (MiniJson.decode_error "Expecting value"));
    reflexivity.
Defined.
